(** * kubectl set selector: a shallow embedding of pkg/kubectl/cmd/set/set_selector.go

    The development follows the source file top-down: the option struct,
    [Complete], [Validate], [RunSelector], [updateSelectorForObject] and
    [getResourcesAndSelector].  Go maps are finite maps behind a nil-able
    reference, errors are values, in-place mutation of an object becomes
    "the object afterwards" in the result, and calls to collaborators
    (remote client, printer) are recorded in a trace. *)

From Stdlib Require Import String List Bool.
From stdpp Require Import base option gmap strings list.

Local Open Scope string_scope.

(** ** Go values used by the file *)

(** [[]byte] *)
Definition bytes := list Byte.byte.

(** [map[string]string]: a reference that is either nil or a finite map. *)
Definition GoMap : Type := option (gmap string string).

(** The entries a [for k, v := range m] loop goes through; a nil map has none. *)
Definition go_range (m : GoMap) : list (string * string) :=
  match m with
  | None => []
  | Some g => map_to_list g
  end.

(** The content of a Go map read as a finite map (indexing a nil map finds nothing). *)
Definition go_entries (m : GoMap) : gmap string string :=
  match m with
  | None => ∅
  | Some g => g
  end.

(** [metav1.LabelSelectorRequirement] *)
Record LabelSelectorRequirement := {
  Key : string;
  Operator : string;
  Values : list string
}.

(** [metav1.LabelSelector] *)
Record LabelSelector := {
  MatchLabels : GoMap;
  MatchExpressions : list LabelSelectorRequirement
}.

(** Go [error] values.  [Errorf] keeps the format string and the arguments of
    the [fmt.Errorf] call that built the error. *)
Inductive fmt_arg :=
| ArgString (s : string)
| ArgExpressions (exprs : list LabelSelectorRequirement)
| ArgError (e : error)
with error :=
| Errorf (format : string) (args : list fmt_arg)
| LocalResourceError                 (* resource.LocalResourceError *)
| ExternalError (msg : string).      (* an error made by a collaborator *)

(** ** Results of fallible collaborator calls: a value or an error *)

Inductive res (A : Type) :=
| Ok (a : A)
| Fail (e : error).
Arguments Ok {A} a.
Arguments Fail {A} e.

(** A Go call returns or panics (the file can dereference a nil selector). *)
Inductive outcome (A : Type) :=
| Ret (a : A)
| Panic.
Arguments Ret {A} a.
Arguments Panic {A}.

(** ** Types declared outside the file

    The declarations of the API objects and of the client machinery are not
    part of set_selector.go; everything the file does not look into is a
    parameter. *)
Record ApiTypes : Type := {
  TypeMeta : Type;          (* metav1.TypeMeta *)
  ObjectMeta : Type;        (* metav1.ObjectMeta *)
  ServiceSpecRest : Type;   (* the fields of v1.ServiceSpec other than Selector *)
  ServiceStatus : Type;     (* v1.ServiceStatus *)
  OtherObject : Type;       (* a runtime.Object whose dynamic type is not *v1.Service *)
  RESTClient : Type;        (* resource.RESTClient *)
  RESTMappingRest : Type;   (* the fields of meta.RESTMapping other than Resource *)
  RESTMapper : Type;        (* meta.RESTMapper *)
  InfoRest : Type;          (* the fields of resource.Info the file does not name *)
  Result : Type;            (* resource.Result *)
  Command : Type;           (* cobra.Command *)
  PrintFlags : Type;        (* printers.PrintFlags *)
  Writer : Type             (* io.Writer *)
}.

Section Model.
Context {T : ApiTypes}.

(** [v1.ServiceSpec] *)
Record ServiceSpec := {
  Selector : GoMap;
  specRest : ServiceSpecRest T
}.

(** [v1.Service] *)
Record Service := {
  svcTypeMeta : TypeMeta T;
  svcObjectMeta : ObjectMeta T;
  Spec : ServiceSpec;
  Status : ServiceStatus T
}.

(** [runtime.Object], by dynamic type: the type switch of
    [updateSelectorForObject] tells [*v1.Service] from everything else. *)
Inductive runtime_Object :=
| ObjService (t : Service)
| ObjOther (x : OtherObject T).

(** [t.Spec.Selector = sel] *)
Definition set_Spec_Selector (t : Service) (sel : GoMap) : Service :=
  {| svcTypeMeta := svcTypeMeta t;
     svcObjectMeta := svcObjectMeta t;
     Spec := {| Selector := sel; specRest := specRest (Spec t) |};
     Status := Status t |}.

(** ** updateSelectorForObject (lines 230-249) *)

(** The closure [copyOldSelector]: the loop inserts every ranged entry into a
    map made empty. *)
Definition copyOldSelector (selector : LabelSelector) : GoMap * option error :=
  if (0 <? length (MatchExpressions selector))%nat then
    (None,
     Some (Errorf "match expression %v not supported on this object"
                  [ArgExpressions (MatchExpressions selector)]))
  else
    let dst : gmap string string := ∅ in
    (Some (fold_left (fun dst '(label, value) => <[label := value]> dst)
                     (go_range (MatchLabels selector)) dst),
     None).

(** The object is mutated in place: the result carries the object afterwards
    next to the returned error. *)
Definition updateSelectorForObject (obj : runtime_Object) (selector : LabelSelector)
  : runtime_Object * option error :=
  match obj with
  | ObjService t =>
      let '(sel, err) := copyOldSelector selector in
      (ObjService (set_Spec_Selector t sel), err)
  | ObjOther _ =>
      (obj, Some (Errorf "setting a selector is only supported for Services" []))
  end.

(** ** getResourcesAndSelector (lines 251-259) *)

Section Parse.
(** [metav1.ParseToLabelSelector]: returns a selector pointer (nil-able) and
    an error. *)
Variable ParseToLabelSelector : string -> option LabelSelector * option error.

(** [args[:len(args)-1]] is [take], [args[len(args)-1]] is an index in range. *)
Definition getResourcesAndSelector (args : list string)
  : list string * option LabelSelector * option error :=
  if (length args =? 0)%nat then ([], None, None)
  else
    let resources := take (length args - 1) args in
    let '(selector, err) := ParseToLabelSelector (nth (length args - 1) args "") in
    (resources, selector, err).
End Parse.

(** ** The option struct *)

(** [resource.FilenameOptions] *)
Record FilenameOptions := {
  Filenames : list string;
  Recursive : bool
}.

(** [meta.RESTMapping] *)
Record RESTMapping := {
  Resource : string;
  mappingRest : RESTMappingRest T
}.

(** The calls made on a [resource.Builder], oldest first: the builder is
    configured by chained calls and only read by [Do]. *)
Inductive builder_call :=
| Internal
| LocalParam (local : bool)
| ContinueOnError
| NamespaceParam (namespace : string)
| DefaultNamespace
| FilenameParam (enforceNamespace : bool) (filenameOptions : FilenameOptions)
| IncludeUninitialized (includeUninitialized : bool)
| Flatten
| ResourceTypeOrNameArgs (all : bool) (args : list string)
| Latest.

Definition Builder := list builder_call.

(** [printers.ResourcePrinterFunc] *)
Definition ResourcePrinterFunc := runtime_Object -> Writer T -> option error.

(** [SelectorOptions] (lines 40-62) *)
Record SelectorOptions := {
  fileOptions : FilenameOptions;
  oPrintFlags : PrintFlags T;
  local : bool;
  dryrun : bool;
  all : bool;
  record : bool;
  changeCause : string;
  output : string;
  resources : list string;
  selector : option LabelSelector;
  out : Writer T;
  oClientForMapping : RESTMapping -> res (RESTClient T);
  PrintObj : ResourcePrinterFunc;
  builder : Builder;
  mapper : RESTMapper T
}.

(** ** Validate (lines 173-182) *)

(** Modelled from the spec: cmdutil.IsFilenameSliceEmpty is not in the file;
    "no targets specified" is an empty filename list. *)
Definition IsFilenameSliceEmpty (filenames : list string) : bool :=
  (length filenames =? 0)%nat.

Definition Validate (o : SelectorOptions) : option error :=
  if (length (resources o) <? 1)%nat && IsFilenameSliceEmpty (Filenames (fileOptions o)) then
    Some (Errorf "one or more resources must be specified as <resource> <name> or <resource>/<name>" [])
  else
    match selector o with
    | None => Some (Errorf "one selector is required" [])
    | Some _ => None
    end.

(** ** Complete (lines 113-171) *)

(** [cmdutil.Factory], the methods [Complete] calls. *)
Record Factory := {
  f_DefaultNamespace : string * bool * option error;
  f_Command : Command T -> bool -> string;
  f_Object : RESTMapper T;
  f_NewBuilder : Builder;
  f_ClientForMapping : RESTMapping -> res (RESTClient T)
}.

(** The helpers of cmdutil, metav1 and printers that [Complete] calls. *)
Record Helpers := {
  GetFlagBool : Command T -> string -> bool;
  GetFlagString : Command T -> string -> string;
  GetRecordFlag : Command T -> bool;
  GetDryRunFlag : Command T -> bool;
  ShouldIncludeUninitialized : Command T -> bool -> bool;
  ParseToLabelSelector : string -> option LabelSelector * option error;
  PrintFlags_Complete : PrintFlags T -> string -> PrintFlags T;
  ToPrinter : PrintFlags T -> res ResourcePrinterFunc
}.

(** The assignments to the fields of [o], in the groups in which [Complete]
    makes them between two return points. *)
Definition assign_flags (o : SelectorOptions) (l a r d : bool) (outp : string)
  : SelectorOptions :=
  {| fileOptions := fileOptions o; oPrintFlags := oPrintFlags o;
     local := l; dryrun := d; all := a; record := r;
     changeCause := changeCause o; output := outp;
     resources := resources o; selector := selector o; out := out o;
     oClientForMapping := oClientForMapping o; PrintObj := PrintObj o;
     builder := builder o; mapper := mapper o |}.

Definition assign_args (o : SelectorOptions) (cause : string) (m : RESTMapper T)
    (rs : list string) (sel : option LabelSelector) : SelectorOptions :=
  {| fileOptions := fileOptions o; oPrintFlags := oPrintFlags o;
     local := local o; dryrun := dryrun o; all := all o; record := record o;
     changeCause := cause; output := output o;
     resources := rs; selector := sel; out := out o;
     oClientForMapping := oClientForMapping o; PrintObj := PrintObj o;
     builder := builder o; mapper := m |}.

Definition assign_builder (o : SelectorOptions) (b : Builder) : SelectorOptions :=
  {| fileOptions := fileOptions o; oPrintFlags := oPrintFlags o;
     local := local o; dryrun := dryrun o; all := all o; record := record o;
     changeCause := changeCause o; output := output o;
     resources := resources o; selector := selector o; out := out o;
     oClientForMapping := oClientForMapping o; PrintObj := PrintObj o;
     builder := b; mapper := mapper o |}.

Definition assign_PrintFlags (o : SelectorOptions) (pf : PrintFlags T) : SelectorOptions :=
  {| fileOptions := fileOptions o; oPrintFlags := pf;
     local := local o; dryrun := dryrun o; all := all o; record := record o;
     changeCause := changeCause o; output := output o;
     resources := resources o; selector := selector o; out := out o;
     oClientForMapping := oClientForMapping o; PrintObj := PrintObj o;
     builder := builder o; mapper := mapper o |}.

Definition assign_funcs (o : SelectorOptions) (p : ResourcePrinterFunc)
    (c : RESTMapping -> res (RESTClient T)) : SelectorOptions :=
  {| fileOptions := fileOptions o; oPrintFlags := oPrintFlags o;
     local := local o; dryrun := dryrun o; all := all o; record := record o;
     changeCause := changeCause o; output := output o;
     resources := resources o; selector := selector o; out := out o;
     oClientForMapping := c; PrintObj := p;
     builder := builder o; mapper := mapper o |}.

(** [Complete] assigns to [o] in place and returns an error: the result is
    [o] as the call leaves it, and the error. *)
Definition Complete (h : Helpers) (o : SelectorOptions) (f : Factory)
    (cmd : Command T) (args : list string) : SelectorOptions * option error :=
  let o := assign_flags o (GetFlagBool h cmd "local") (GetFlagBool h cmd "all")
             (GetRecordFlag h cmd) (GetDryRunFlag h cmd)
             (GetFlagString h cmd "output") in
  let '(cmdNamespace, enforceNamespace, err) := f_DefaultNamespace f in
  match err with
  | Some e => (o, Some e)
  | None =>
  let '(rs, sel, err) := getResourcesAndSelector (ParseToLabelSelector h) args in
  let o := assign_args o (f_Command f cmd false) (f_Object f) rs sel in
  match err with
  | Some e => (o, Some e)
  | None =>
  let includeUninitialized := ShouldIncludeUninitialized h cmd false in
  let o := assign_builder o
             (f_NewBuilder f ++
              [Internal; LocalParam (local o); ContinueOnError;
               NamespaceParam cmdNamespace; DefaultNamespace;
               FilenameParam enforceNamespace (fileOptions o);
               IncludeUninitialized includeUninitialized; Flatten])%list in
  let continue (o : SelectorOptions) :=
    let o := if dryrun o
             then assign_PrintFlags o (PrintFlags_Complete h (oPrintFlags o) "%s (dry run)")
             else o in
    match ToPrinter h (oPrintFlags o) with
    | Fail e => (o, Some e)
    | Ok printer => (assign_funcs o printer (f_ClientForMapping f), None)
    end in
  if negb (local o) then
    continue (assign_builder o
                (builder o ++ [ResourceTypeOrNameArgs (all o) (resources o); Latest])%list)
  else
    if (0 <? length (resources o))%nat then (o, Some LocalResourceError)
    else continue o
  end
  end.

(** ** RunSelector (lines 184-228) *)

(** [resource.Info]: the visitor holds a pointer to it and writes [Object]. *)
Record Info := {
  Client : RESTClient T;
  Mapping : RESTMapping;
  Namespace : string;
  Name : string;
  Object : runtime_Object;
  infoRest : InfoRest T
}.

(** [info.Object = obj] *)
Definition set_Object (info : Info) (obj : runtime_Object) : Info :=
  {| Client := Client info; Mapping := Mapping info;
     Namespace := Namespace info; Name := Name info;
     Object := obj; infoRest := infoRest info |}.

(** [types.PatchType] *)
Inductive PatchType :=
| JSONPatchType
| MergePatchType
| StrategicMergePatchType.

(** The calls a visit makes to its collaborators, in the order made. *)
Inductive event :=
| CallPatch (namespace name : string) (pt : PatchType) (data : bytes)
| CallReplace (namespace name : string) (overwrite : bool) (obj : runtime_Object)
| CallRefresh (obj : runtime_Object) (ignoreVersion : bool)
| CallPrintObj (obj : runtime_Object).

(** A call that reaches the remote store. *)
Definition is_remote (e : event) : bool :=
  match e with
  | CallPatch _ _ _ _ | CallReplace _ _ _ _ => true
  | CallRefresh _ _ | CallPrintObj _ => false
  end.

Definition is_print (e : event) : bool :=
  match e with
  | CallPrintObj _ => true
  | _ => false
  end.

(** What one visit reads and writes: the [Info] behind the pointer and the
    calls made so far. *)
Record VisitState := {
  st_info : Info;
  st_trace : list event
}.

Definition M (A : Type) : Type := VisitState -> outcome A * VisitState.

Definition ret {A} (a : A) : M A := fun s => (Ret a, s).

Definition bind {A B} (m : M A) (k : A -> M B) : M B :=
  fun s =>
    match m s with
    | (Ret a, s') => k a s'
    | (Panic, s') => (Panic, s')
    end.

Definition panic {A} : M A := fun s => (Panic, s).

Definition get_info : M Info := fun s => (Ret (st_info s), s).

Definition put_info (info : Info) : M unit :=
  fun s => (Ret tt, {| st_info := info; st_trace := st_trace s |}).

Definition get_trace : M (list event) := fun s => (Ret (st_trace s), s).

Definition emit (e : event) : M unit :=
  fun s => (Ret tt, {| st_info := st_info s; st_trace := (st_trace s ++ [e])%list |}).

(** [*p] *)
Definition deref {A} (p : option A) : M A :=
  match p with
  | Some a => ret a
  | None => panic
  end.

Notation "x <- c1 ;; c2" := (bind c1 (fun x => c2))
  (at level 100, c1 at next level, right associativity).
Notation "c1 ;;; c2" := (bind c1 (fun _ => c2))
  (at level 100, right associativity).

(** What a visit returns to [Result.Visit]. *)
Definition VisitorFunc : Type :=
  Info -> option error -> list event -> outcome (option error) * VisitState.

(** The collaborators of [RunSelector].  The remote store answers a call
    from the calls made so far and the arguments. *)
Record Cluster := {
  (* runtime.Encode(cmdutil.InternalVersionJSONEncoder(), obj) *)
  Encode : runtime_Object -> res bytes;
  (* the minimal structural difference of two serialized forms *)
  minimal_patch : bytes -> bytes -> res bytes;
  (* info.AsVersioned() *)
  AsVersioned : Info -> runtime_Object;
  (* resource.NewHelper(client, mapping).Patch(namespace, name, pt, data) *)
  Helper_Patch : list event -> RESTClient T -> RESTMapping -> string -> string ->
                 PatchType -> bytes -> res runtime_Object;
  (* resource.NewHelper(client, mapping).Replace(namespace, name, overwrite, obj) *)
  Helper_Replace : list event -> RESTClient T -> RESTMapping -> string -> string ->
                   bool -> runtime_Object -> res runtime_Object;
  (* info.Refresh(obj, ignoreVersion): the Info afterwards *)
  Info_Refresh : Info -> runtime_Object -> bool -> Info;
  (* cmdutil.ContainsChangeCause(info) *)
  ContainsChangeCause : Info -> bool;
  (* cmdutil.RecordChangeCause(obj, changeCause): annotates obj in place *)
  RecordChangeCause : runtime_Object -> string -> runtime_Object * option error;
  (* builder.Do(), r.Err(), r.Visit(fn) *)
  Do : Builder -> Result T;
  Result_Err : Result T -> option error;
  Visit : Result T -> VisitorFunc -> list event -> outcome (option error) * list event
}.

(** [Patch] of helper.go; its field [Info] is the pointer the visit holds,
    kept in the visit state. *)
Record Patch := {
  Before : bytes;
  After : bytes;
  PatchBytes : bytes;      (* the field Patch *)
  Err : option error
}.

Definition set_Patch (patch : Patch) (b a p : bytes) (e : option error) : Patch :=
  {| Before := b; After := a; PatchBytes := p; Err := e |}.

(** Modelled from the spec: CalculatePatch (helper.go) is not in the file.
    Patch Calculator, steps 1-5: serialize the object's pre-mutation state;
    invoke the mutate function, which mutates the object in place and returns
    the modified form or an error; when it fails the computation fails with
    that error and no patch is produced; otherwise compute the minimal
    structural difference of the two forms.  Encoding, mutation and diff
    failures are surfaced. *)
Definition CalculatePatch (c : Cluster) (patch : Patch)
    (encode : runtime_Object -> res bytes) (mutateFn : M (res bytes)) : M Patch :=
  info <- get_info ;;
  match encode (Object info) with
  | Fail e => ret (set_Patch patch (Before patch) (After patch) (PatchBytes patch) (Some e))
  | Ok before =>
      r <- mutateFn ;;
      match r with
      | Fail e => ret (set_Patch patch before (After patch) (PatchBytes patch) (Some e))
      | Ok after =>
          match minimal_patch c before after with
          | Fail e => ret (set_Patch patch before after (PatchBytes patch) (Some e))
          | Ok p => ret (set_Patch patch before after p None)
          end
      end
  end.

(** The closure handed to [CalculatePatch] (lines 194-203).  [patch.Info] and
    [info] are one pointer: the assignment to [patch.Info.Object] is seen by
    [info.Object]. *)
Definition mutateFn (c : Cluster) (o : SelectorOptions) : M (res bytes) :=
  info <- get_info ;;
  let versioned := AsVersioned c info in
  put_info (set_Object info versioned) ;;;
  info <- get_info ;;
  sel <- deref (selector o) ;;
  let '(obj, selectErr) := updateSelectorForObject (Object info) sel in
  put_info (set_Object info obj) ;;;
  match selectErr with
  | None => info <- get_info ;; ret (Encode c (Object info))
  | Some e => ret (Fail e)
  end.

Definition call_PrintObj (o : SelectorOptions) (obj : runtime_Object) : M (option error) :=
  emit (CallPrintObj obj) ;;;
  ret (PrintObj o obj (out o)).

Definition call_Patch (c : Cluster) (info : Info) (pt : PatchType) (data : bytes)
  : M (res runtime_Object) :=
  w <- get_trace ;;
  emit (CallPatch (Namespace info) (Name info) pt data) ;;;
  ret (Helper_Patch c w (Client info) (Mapping info) (Namespace info) (Name info) pt data).

Definition call_Replace (c : Cluster) (info : Info) (overwrite : bool)
    (obj : runtime_Object) : M (res runtime_Object) :=
  w <- get_trace ;;
  emit (CallReplace (Namespace info) (Name info) overwrite obj) ;;;
  ret (Helper_Replace c w (Client info) (Mapping info) (Namespace info) (Name info)
         overwrite obj).

Definition call_Refresh (c : Cluster) (obj : runtime_Object) (ignoreVersion : bool)
  : M unit :=
  info <- get_info ;;
  emit (CallRefresh obj ignoreVersion) ;;;
  put_info (Info_Refresh c info obj ignoreVersion).

Definition newline : string := String (Ascii.ascii_of_nat 10) EmptyString.

Definition zero_Patch : Patch :=
  {| Before := []; After := []; PatchBytes := []; Err := None |}.

(** The visitor of lines 192-227, for the [Info] in the visit state. *)
Definition visit (c : Cluster) (o : SelectorOptions) : M (option error) :=
  patch <- CalculatePatch c zero_Patch (Encode c) (mutateFn c o) ;;
  match Err patch with
  | Some e => ret (Some e)
  | None =>
      if local o || dryrun o then
        info <- get_info ;;
        call_PrintObj o (Object info)
      else
        info <- get_info ;;
        r <- call_Patch c info StrategicMergePatchType (PatchBytes patch) ;;
        match r with
        | Fail err => ret (Some err)
        | Ok patched =>
            r <- (if record o || ContainsChangeCause c info then
                    let '(patched, err) := RecordChangeCause c patched (changeCause o) in
                    match err with
                    | None =>
                        r <- call_Replace c info false patched ;;
                        match r with
                        | Fail err =>
                            ret (Fail (Errorf ("changes to %s/%s can't be recorded: %v" +:+ newline)
                                         [ArgString (Resource (Mapping info));
                                          ArgString (Name info); ArgError err]))
                        | Ok patched => ret (Ok patched)
                        end
                    | Some _ => ret (Ok patched)
                    end
                  else ret (Ok patched)) ;;
            match r with
            | Fail e => ret (Some e)
            | Ok patched =>
                call_Refresh c patched true ;;;
                info <- get_info ;;
                call_PrintObj o (AsVersioned c info)
            end
        end
  end.

Definition RunSelector (c : Cluster) (o : SelectorOptions)
  : list event -> outcome (option error) * list event :=
  fun w =>
    let r := Do c (builder o) in
    match Result_Err c r with
    | Some err => (Ret (Some err), w)
    | None =>
        Visit c r (fun info _ w => visit c o {| st_info := info; st_trace := w |}) w
    end.

(** ** The command's Run function (lines 92-96) *)

(** How the process ends. *)
Inductive exit :=
| ExitOk
| ExitFatal (e : error)
| ExitPanic.

(** Modelled from the spec: cmdutil.CheckErr is not in the file; an error of
    Complete, Validate or RunSelector aborts the whole invocation and is its
    sole outcome. *)
Definition Run (h : Helpers) (c : Cluster) (options : SelectorOptions) (f : Factory)
    (cmd : Command T) (args : list string) (w : list event) : exit * list event :=
  let '(options, err) := Complete h options f cmd args in
  match err with
  | Some e => (ExitFatal e, w)
  | None =>
      match Validate options with
      | Some e => (ExitFatal e, w)
      | None =>
          match RunSelector c options w with
          | (Ret (Some e), w') => (ExitFatal e, w')
          | (Ret None, w') => (ExitOk, w')
          | (Panic, w') => (ExitPanic, w')
          end
      end
  end.

End Model.

(** The type formers take the parameter record explicitly. *)
Arguments ServiceSpec T : clear implicits.
Arguments Service T : clear implicits.
Arguments runtime_Object T : clear implicits.
Arguments RESTMapping T : clear implicits.
Arguments ResourcePrinterFunc T : clear implicits.
Arguments SelectorOptions T : clear implicits.
Arguments Factory T : clear implicits.
Arguments Helpers T : clear implicits.
Arguments Info T : clear implicits.
Arguments event T : clear implicits.
Arguments VisitState T : clear implicits.
Arguments M T : clear implicits.
Arguments VisitorFunc T : clear implicits.
Arguments Cluster T : clear implicits.

(** ** Concrete objects and collaborators for the examples *)

(** The parameter types at their simplest: metadata and the remaining fields
    are strings, an object of another type is named by its kind, a command is
    the list of the boolean flags set on it. *)
Definition demoT : ApiTypes :=
  {| TypeMeta := string; ObjectMeta := string; ServiceSpecRest := string;
     ServiceStatus := string; OtherObject := string; RESTClient := unit;
     RESTMappingRest := unit; RESTMapper := unit; InfoRest := unit;
     Result := unit; Command := list string; PrintFlags := string;
     Writer := unit |}.

(** A Service with selector [{env: prod}]. *)
Definition demo_service : Service demoT :=
  @Build_Service demoT "Service" "web"
    (@Build_ServiceSpec demoT (Some {[ "env" := "prod" ]}) "ClusterIP")
    "loadBalancer: {}".

(** A Service with selector [{a: 1}]. *)
Definition demo_service_a : Service demoT :=
  @Build_Service demoT "Service" "web"
    (@Build_ServiceSpec demoT (Some {[ "a" := "1" ]}) "ClusterIP")
    "".

(** An object of a kind without selector support. *)
Definition demo_pod : runtime_Object demoT := @ObjOther demoT "Pod".

(** [env=qa] *)
Definition sel_env_qa : LabelSelector :=
  {| MatchLabels := Some {[ "env" := "qa" ]}; MatchExpressions := [] |}.

(** [b=2] *)
Definition sel_b_2 : LabelSelector :=
  {| MatchLabels := Some {[ "b" := "2" ]}; MatchExpressions := [] |}.

(** [env in (qa, prod)] *)
Definition req_env_in : LabelSelectorRequirement :=
  {| Key := "env"; Operator := "In"; Values := ["prod"; "qa"] |}.

Definition sel_env_in : LabelSelector :=
  {| MatchLabels := Some ∅; MatchExpressions := [req_env_in] |}.

(** The dynamic type test of the type switch. *)
Definition is_v1_Service {T : ApiTypes} (obj : runtime_Object T) : bool :=
  match obj with
  | ObjService _ => true
  | ObjOther _ => false
  end.

(** The two errors of [updateSelectorForObject]. *)
Definition unsupported_selector_form (exprs : list LabelSelectorRequirement) : error :=
  Errorf "match expression %v not supported on this object" [ArgExpressions exprs].

Definition unsupported_kind : error :=
  Errorf "setting a selector is only supported for Services" [].

(** A selector parser that knows two expressions and rejects the rest. *)
Definition demo_parse (s : string) : option LabelSelector * option error :=
  if String.eqb s "env=qa" then (Some sel_env_qa, None)
  else if String.eqb s "env in (qa, prod)" then (Some sel_env_in, None)
  else (None, Some (ExternalError "unable to parse requirement")).

Definition demo_printer : ResourcePrinterFunc demoT := fun _ _ => None.

(** An output sink that cannot be written to. *)
Definition broken_printer : ResourcePrinterFunc demoT :=
  fun _ _ => Some (ExternalError "write: broken pipe").

Definition demo_helpers : Helpers demoT :=
  {| GetFlagBool := fun (cmd : Command demoT) name => existsb (String.eqb name) cmd;
     GetFlagString := fun _ _ => "";
     GetRecordFlag := fun (cmd : Command demoT) => existsb (String.eqb "record") cmd;
     GetDryRunFlag := fun (cmd : Command demoT) => existsb (String.eqb "dry-run") cmd;
     ShouldIncludeUninitialized := fun _ d => d;
     ParseToLabelSelector := demo_parse;
     PrintFlags_Complete := fun (pf : PrintFlags demoT) (s : string) => s;
     ToPrinter := fun _ => Ok demo_printer |}.

Definition demo_factory : Factory demoT :=
  {| f_DefaultNamespace := ("default", false, None);
     f_Command := fun _ _ => "kubectl set selector";
     f_Object := (tt : RESTMapper demoT);
     f_NewBuilder := [];
     f_ClientForMapping := fun _ => Ok (tt : RESTClient demoT) |}.

(** The options as [NewCmdSelector] makes them, before [Complete]. *)
Definition demo_options : SelectorOptions demoT :=
  {| fileOptions := {| Filenames := []; Recursive := false |};
     oPrintFlags := ("selector updated" : PrintFlags demoT);
     local := false; dryrun := false; all := false; record := false;
     changeCause := ""; output := ""; resources := []; selector := None;
     out := (tt : Writer demoT);
     oClientForMapping := fun _ => Fail (ExternalError "no client");
     PrintObj := demo_printer;
     builder := []; mapper := (tt : RESTMapper demoT) |}.

(** Completed options with selector [env=qa], by run mode and printer. *)
Definition demo_run_options (l r : bool) (p : ResourcePrinterFunc demoT)
  : SelectorOptions demoT :=
  {| fileOptions := {| Filenames := ["svc.yaml"]; Recursive := false |};
     oPrintFlags := ("selector updated" : PrintFlags demoT);
     local := l; dryrun := false; all := false; record := r;
     changeCause := "kubectl set selector"; output := "";
     resources := []; selector := Some sel_env_qa;
     out := (tt : Writer demoT);
     oClientForMapping := fun _ => Ok (tt : RESTClient demoT);
     PrintObj := p;
     builder := []; mapper := (tt : RESTMapper demoT) |}.

Definition demo_info : Info demoT :=
  {| Client := (tt : RESTClient demoT);
     Mapping := {| Resource := "services"; mappingRest := (tt : RESTMappingRest demoT) |};
     Namespace := "default"; Name := "web";
     Object := ObjService demo_service;
     infoRest := (tt : InfoRest demoT) |}.

(** A visit of the given objects in turn that goes on after a failure and
    reports the first error. *)
Fixpoint visit_all (infos : list (Info demoT)) (fn : VisitorFunc demoT)
    (w : list (event demoT)) : outcome (option error) * list (event demoT) :=
  match infos with
  | [] => (Ret None, w)
  | info :: rest =>
      match fn info None w with
      | (Ret err, s) =>
          match visit_all rest fn (st_trace s) with
          | (Ret err', w') =>
              (Ret (match err with Some e => Some e | None => err' end), w')
          | (Panic, w') => (Panic, w')
          end
      | (Panic, s) => (Panic, st_trace s)
      end
  end.

(** An encoder that writes the selector entries as [key=value;] and any
    other object as its kind. *)
Definition demo_encode (obj : runtime_Object demoT) : res bytes :=
  match obj with
  | ObjService t =>
      Ok (String.list_byte_of_string
            (fold_right (fun '(k, v) acc => k +:+ "=" +:+ v +:+ ";" +:+ acc) ""
                        (go_range (Selector (Spec t)))))
  | ObjOther x => Ok (String.list_byte_of_string x)
  end.

(** A store that accepts the patch and answers with the object given as
    [patched]; its replace call always fails with a conflict.  The difference
    of two serialized forms is the modified form. *)
Definition demo_cluster (patched : runtime_Object demoT) : Cluster demoT :=
  {| Encode := demo_encode;
     minimal_patch := fun _ after => Ok after;
     AsVersioned := fun info => Object info;
     Helper_Patch := fun _ _ _ _ _ _ _ => Ok patched;
     Helper_Replace := fun _ _ _ _ _ _ _ => Fail (ExternalError "conflict");
     Info_Refresh := fun info obj _ => set_Object info obj;
     ContainsChangeCause := fun _ => false;
     RecordChangeCause := fun obj _ => (obj, None);
     Do := fun _ => (tt : Result demoT);
     Result_Err := fun _ => None;
     Visit := fun _ fn w => visit_all [demo_info] fn w |}.

(** The Service with selector [{env: qa}]. *)
Definition demo_service_qa : Service demoT :=
  set_Spec_Selector demo_service (Some {[ "env" := "qa" ]}).

(** The visit state before the visit of [demo_info]. *)
Definition demo_state : VisitState demoT :=
  {| st_info := demo_info; st_trace := [] |}.

(** Local mode with the broken printer; remote mode with the record flag. *)
Definition demo_local_broken : SelectorOptions demoT :=
  demo_run_options true false broken_printer.

Definition demo_local : SelectorOptions demoT :=
  demo_run_options true false demo_printer.

Definition demo_remote_record : SelectorOptions demoT :=
  demo_run_options false true demo_printer.

(** ** Definitions used to state further properties *)

(** The loop of [copyOldSelector] (lines 235-238) run over the entries in a
    given order; Go leaves the order of [range] over a map unspecified. *)
Definition copy_loop (entries : list (string * string)) : gmap string string :=
  fold_left (fun dst '(label, value) => <[label := value]> dst) entries ∅.

(** The sequences of collaborator calls one visit can make for the object
    [namespace]/[name]. *)
Inductive call_sequence {T : ApiTypes} (namespace name : string)
  : list (event T) -> Prop :=
| calls_none :
    call_sequence namespace name []
| calls_print obj :
    call_sequence namespace name [CallPrintObj obj]
| calls_patch data :
    call_sequence namespace name
      [CallPatch namespace name StrategicMergePatchType data]
| calls_patch_replace data annotated :
    call_sequence namespace name
      [CallPatch namespace name StrategicMergePatchType data;
       CallReplace namespace name false annotated]
| calls_patch_refresh_print data patched printed :
    call_sequence namespace name
      [CallPatch namespace name StrategicMergePatchType data;
       CallRefresh patched true;
       CallPrintObj printed]
| calls_patch_replace_refresh_print data annotated replaced printed :
    call_sequence namespace name
      [CallPatch namespace name StrategicMergePatchType data;
       CallReplace namespace name false annotated;
       CallRefresh replaced true;
       CallPrintObj printed].

(** [{a: 1, b: 2}] *)
Definition sel_a1_b2 : LabelSelector :=
  {| MatchLabels := Some (<[ "a" := "1" ]> {[ "b" := "2" ]});
     MatchExpressions := [] |}.

(** A store whose patch, annotation and replace steps succeed or fail as
    told; a successful patch answers [patched], a successful replace answers
    the object it was given. *)
Definition demo_store (patch_ok annotate_ok replace_ok : bool)
    (patched : runtime_Object demoT) : Cluster demoT :=
  {| Encode := demo_encode;
     minimal_patch := fun _ after => Ok after;
     AsVersioned := fun info => Object info;
     Helper_Patch := fun _ _ _ _ _ _ _ =>
       if patch_ok then Ok patched else Fail (ExternalError "not found");
     Helper_Replace := fun _ _ _ _ _ _ obj =>
       if replace_ok then Ok obj else Fail (ExternalError "conflict");
     Info_Refresh := fun info obj _ => set_Object info obj;
     ContainsChangeCause := fun _ => false;
     RecordChangeCause := fun obj _ =>
       (obj, if annotate_ok then None else Some (ExternalError "no accessor"));
     Do := fun _ => (tt : Result demoT);
     Result_Err := fun _ => None;
     Visit := fun _ fn w => visit_all [demo_info] fn w |}.

(** Remote mode without the record flag; options with a nil selector. *)
Definition demo_remote : SelectorOptions demoT :=
  demo_run_options false false demo_printer.

Definition demo_nil_selector : SelectorOptions demoT :=
  {| fileOptions := {| Filenames := ["svc.yaml"]; Recursive := false |};
     oPrintFlags := ("selector updated" : PrintFlags demoT);
     local := true; dryrun := false; all := false; record := false;
     changeCause := ""; output := ""; resources := []; selector := None;
     out := (tt : Writer demoT);
     oClientForMapping := fun _ => Ok (tt : RESTClient demoT);
     PrintObj := demo_printer;
     builder := []; mapper := (tt : RESTMapper demoT) |}.

(** Options whose selector is [env in (qa, prod)]. *)
Definition demo_set_based : SelectorOptions demoT :=
  {| fileOptions := {| Filenames := ["svc.yaml"]; Recursive := false |};
     oPrintFlags := ("selector updated" : PrintFlags demoT);
     local := false; dryrun := false; all := false; record := false;
     changeCause := ""; output := ""; resources := []; selector := Some sel_env_in;
     out := (tt : Writer demoT);
     oClientForMapping := fun _ => Ok (tt : RESTClient demoT);
     PrintObj := demo_printer;
     builder := []; mapper := (tt : RESTMapper demoT) |}.

(** The patch record and the visit state after the patch calculation for
    [demo_info] and [env=qa]. *)
Definition demo_patch : Patch :=
  {| Before := String.list_byte_of_string "env=prod;";
     After := String.list_byte_of_string "env=qa;";
     PatchBytes := String.list_byte_of_string "env=qa;";
     Err := None |}.

Definition demo_state_updated : VisitState demoT :=
  {| st_info := set_Object demo_info (ObjService demo_service_qa);
     st_trace := [] |}.

(** What the store answers to the patch: the Service with the new selector
    and a status of its own. *)
Definition demo_service_stored : Service demoT :=
  @Build_Service demoT "Service" "web"
    (@Build_ServiceSpec demoT (Some {[ "env" := "qa" ]}) "ClusterIP")
    "resourceVersion: 2".

(** * Properties *)

Section CopyLoop.

(** Inserting the entries of a list one by one, first to last, is
    [list_to_map] of the reversed list. *)
Lemma fold_left_insert_rev (l : list (string * string)) (acc : gmap string string) :
  fold_left (fun dst '(label, value) => <[label := value]> dst) l acc
  = foldr (fun p m => <[p.1 := p.2]> m) acc (rev l).
Proof.
  revert acc. induction l as [|[k v] l IH]; intros acc; simpl; [done|].
  rewrite IH, foldr_app. reflexivity.
Qed.

(** The copy loop over a map rebuilds that map. *)
Lemma copy_loop_map (g : gmap string string) :
  fold_left (fun dst '(label, value) => <[label := value]> dst) (map_to_list g) ∅ = g.
Proof.
  rewrite fold_left_insert_rev.
  change (foldr (fun p m => <[p.1 := p.2]> m) ∅ (rev (map_to_list g)))
    with (list_to_map (M := gmap string string) (rev (map_to_list g))).
  rewrite <- (list_to_map_to_list g) at 2.
  symmetry. apply list_to_map_proper.
  - apply NoDup_fst_map_to_list.
  - apply Permutation_rev.
Qed.

Lemma copy_loop_GoMap (m : GoMap) :
  fold_left (fun dst '(label, value) => <[label := value]> dst) (go_range m) ∅
  = go_entries m.
Proof. destruct m as [g|]; simpl; [apply copy_loop_map | reflexivity]. Qed.

Lemma copyOldSelector_equality_only (sel : LabelSelector) :
  MatchExpressions sel = [] ->
  copyOldSelector sel = (Some (go_entries (MatchLabels sel)), None).
Proof.
  intros H. unfold copyOldSelector. rewrite H. simpl.
  rewrite copy_loop_GoMap. reflexivity.
Qed.

Lemma copyOldSelector_set_based (sel : LabelSelector) :
  MatchExpressions sel <> [] ->
  copyOldSelector sel = (None, Some (unsupported_selector_form (MatchExpressions sel))).
Proof.
  intros H. unfold copyOldSelector.
  destruct (MatchExpressions sel) as [|r rs]; [congruence | reflexivity].
Qed.

End CopyLoop.

Section Mutator.
Context {T : ApiTypes}.

(** C1.  For every Service and every selector without match expressions,
    [updateSelectorForObject] returns no error and leaves in Spec.Selector a
    non-nil map holding exactly the entries of the selector's MatchLabels: a
    key of the prior selector that MatchLabels does not have is gone
    afterwards, whatever the prior selector was (replacement, not a merge). *)
Theorem updateSelector_total_replacement (t : Service T) (sel : LabelSelector) :
  MatchExpressions sel = [] ->
  exists t' : Service T,
    updateSelectorForObject (ObjService t) sel = (ObjService t', None)
    /\ Selector (Spec t') = Some (go_entries (MatchLabels sel))
    /\ (forall k, go_entries (Selector (Spec t')) !! k = go_entries (MatchLabels sel) !! k)
    /\ (forall k, go_entries (MatchLabels sel) !! k = None ->
                  go_entries (Selector (Spec t')) !! k = None).
Proof.
  intros Heq.
  exists (set_Spec_Selector t (Some (go_entries (MatchLabels sel)))).
  unfold updateSelectorForObject.
  rewrite (copyOldSelector_equality_only sel Heq).
  repeat split; simpl; auto.
Qed.

(** C2, as amended.  With a non-empty MatchExpressions list, a Service is
    rejected with the unsupported-selector-form error that carries the
    offending expressions, whatever MatchLabels holds; an object of any other
    type is rejected as well, but with the unsupported-kind error: the type
    switch runs first and the expressions are never looked at. *)
Theorem updateSelector_rejects_expressions (obj : runtime_Object T) (sel : LabelSelector) :
  MatchExpressions sel <> [] ->
  snd (updateSelectorForObject obj sel)
  = Some (if is_v1_Service obj
          then unsupported_selector_form (MatchExpressions sel)
          else unsupported_kind).
Proof.
  intros Hne. destruct obj as [t|x]; simpl.
  - rewrite (copyOldSelector_set_based sel Hne). reflexivity.
  - reflexivity.
Qed.

(** C3.  For every object whose dynamic type is not the Service type and for
    every selector, [updateSelectorForObject] returns the error "setting a
    selector is only supported for Services" and does nothing else. *)
Theorem updateSelector_unsupported_kind (obj : runtime_Object T) (sel : LabelSelector) :
  is_v1_Service obj = false ->
  updateSelectorForObject obj sel
  = (obj, Some (Errorf "setting a selector is only supported for Services" [])).
Proof.
  intros H. destruct obj as [t|x]; [discriminate H | reflexivity].
Qed.

(** C5.  A successful update of a Service changes Spec.Selector only: type and
    object metadata, the remaining spec fields and the status are the ones
    the Service had.  A call on an object of another type fails and leaves
    the object as it was. *)
Theorem updateSelector_frame (obj : runtime_Object T) (sel : LabelSelector) :
  (forall t : Service T,
      obj = ObjService t -> MatchExpressions sel = [] ->
      exists t' : Service T,
        updateSelectorForObject obj sel = (ObjService t', None)
        /\ svcTypeMeta t' = svcTypeMeta t
        /\ svcObjectMeta t' = svcObjectMeta t
        /\ specRest (Spec t') = specRest (Spec t)
        /\ Status t' = Status t)
  /\ (is_v1_Service obj = false ->
      exists e, updateSelectorForObject obj sel = (obj, Some e)).
Proof.
  split.
  - intros t -> Heq.
    exists (set_Spec_Selector t (Some (go_entries (MatchLabels sel)))).
    unfold updateSelectorForObject.
    rewrite (copyOldSelector_equality_only sel Heq).
    repeat split.
  - intros H. destruct obj as [t|x]; [discriminate H|].
    eexists. reflexivity.
Qed.

(** A rejected selector still reaches the assignment: the Service is left
    with a nil selector. *)
Lemma updateSelector_rejection_clears_selector (t : Service T) (sel : LabelSelector) :
  MatchExpressions sel <> [] ->
  fst (updateSelectorForObject (ObjService t) sel)
  = ObjService (set_Spec_Selector t None).
Proof.
  intros Hne. simpl. rewrite (copyOldSelector_set_based sel Hne). reflexivity.
Qed.

End Mutator.

(** The scenario of the total-replacement property: selector [{a: 1}],
    new selector [{b: 2}]. *)
Lemma updateSelector_total_replacement_witness :
  MatchExpressions sel_b_2 = []
  /\ exists t' : Service demoT,
       updateSelectorForObject (ObjService demo_service_a) sel_b_2 = (ObjService t', None)
       /\ Selector (Spec t') = Some (go_entries (MatchLabels sel_b_2))
       /\ (forall k, go_entries (Selector (Spec t')) !! k
                     = go_entries (MatchLabels sel_b_2) !! k)
       /\ (forall k, go_entries (MatchLabels sel_b_2) !! k = None ->
                     go_entries (Selector (Spec t')) !! k = None).
Proof.
  split; [reflexivity|].
  apply (updateSelector_total_replacement demo_service_a sel_b_2). reflexivity.
Defined.

Example replace_a1_by_b2 :
  let '(obj, err) := updateSelectorForObject (ObjService demo_service_a) sel_b_2 in
  err = None
  /\ match obj with
     | ObjService t' =>
         go_entries (Selector (Spec t')) !! "b" = Some "2"
         /\ go_entries (Selector (Spec t')) !! "a" = None
     | ObjOther _ => False
     end.
Proof. vm_compute. auto. Qed.

(** C2 as stated fails: a Pod given [env in (qa, prod)] is rejected with the
    unsupported-kind error, not with the unsupported-selector-form error. *)
Lemma rejection_for_every_kind_fails :
  MatchExpressions sel_env_in <> []
  /\ snd (updateSelectorForObject demo_pod sel_env_in) = Some unsupported_kind
  /\ snd (updateSelectorForObject demo_pod sel_env_in)
     <> Some (unsupported_selector_form (MatchExpressions sel_env_in)).
Proof.
  split; [discriminate|]. split; [reflexivity|].
  simpl. unfold unsupported_kind, unsupported_selector_form. congruence.
Qed.

Lemma updateSelector_rejects_expressions_witness :
  MatchExpressions sel_env_in <> []
  /\ snd (updateSelectorForObject (ObjService demo_service) sel_env_in)
     = Some (unsupported_selector_form [req_env_in]).
Proof.
  split; [discriminate|].
  apply (updateSelector_rejects_expressions (ObjService demo_service) sel_env_in).
  discriminate.
Defined.

Lemma updateSelector_unsupported_kind_witness :
  is_v1_Service demo_pod = false
  /\ updateSelectorForObject demo_pod sel_env_qa
     = (demo_pod, Some (Errorf "setting a selector is only supported for Services" [])).
Proof.
  split; [reflexivity|].
  apply (updateSelector_unsupported_kind demo_pod sel_env_qa). reflexivity.
Defined.

Lemma updateSelector_frame_witness :
  (exists t' : Service demoT,
      updateSelectorForObject (ObjService demo_service) sel_env_qa = (ObjService t', None)
      /\ svcTypeMeta t' = svcTypeMeta demo_service
      /\ svcObjectMeta t' = svcObjectMeta demo_service
      /\ specRest (Spec t') = specRest (Spec demo_service)
      /\ Status t' = Status demo_service)
  /\ (exists e, updateSelectorForObject demo_pod sel_env_qa = (demo_pod, Some e)).
Proof.
  split.
  - apply (proj1 (updateSelector_frame (ObjService demo_service) sel_env_qa) demo_service);
      reflexivity.
  - apply (proj2 (updateSelector_frame demo_pod sel_env_qa)). reflexivity.
Defined.

Section Arguments_and_validation.
Context {T : ApiTypes}.

(** The argument list [rs ++ [e]] is cut before its last element. *)
Lemma getResourcesAndSelector_app
    (parse : string -> option LabelSelector * option error)
    (rs : list string) (e : string) :
  getResourcesAndSelector parse (rs ++ [e]) = (rs, fst (parse e), snd (parse e)).
Proof.
  unfold getResourcesAndSelector.
  rewrite length_app. simpl.
  replace (length rs + 1 =? 0)%nat with false
    by (symmetry; apply Nat.eqb_neq; lia).
  replace (length rs + 1 - 1) with (length rs) by lia.
  rewrite take_app_length, nth_middle.
  destruct (parse e) as [s err]. reflexivity.
Qed.

(** C9.  No argument: an empty resource list, a nil selector, no error.
    One argument or more: the resources are all arguments but the last (for
    arguments [rs ++ [e]] they are [rs]), and selector and error are the ones
    the parse of the last argument returns, so the call fails exactly when
    that parse fails. *)
Theorem getResourcesAndSelector_split
    (parse : string -> option LabelSelector * option error) :
  getResourcesAndSelector parse [] = ([], None, None)
  /\ (forall (rs : list string) (e : string),
        getResourcesAndSelector parse (rs ++ [e]) = (rs, fst (parse e), snd (parse e)))
  /\ (forall (a : string) (args : list string),
        getResourcesAndSelector parse (a :: args)
        = (removelast (a :: args),
           fst (parse (List.last (a :: args) a)),
           snd (parse (List.last (a :: args) a)))
        /\ length (removelast (a :: args)) = length (a :: args) - 1)
  /\ (forall (rs : list string) (e : string),
        snd (getResourcesAndSelector parse (rs ++ [e])) = None <-> snd (parse e) = None).
Proof.
  split; [reflexivity|]. split; [apply getResourcesAndSelector_app|]. split.
  - intros a args.
    assert (Hne : a :: args <> []) by discriminate.
    rewrite (app_removelast_last a Hne) at 1.
    rewrite getResourcesAndSelector_app. split; [reflexivity|].
    rewrite (app_removelast_last a Hne) at 2.
    rewrite length_app. simpl. lia.
  - intros rs e. rewrite getResourcesAndSelector_app. reflexivity.
Qed.

(** C8.  [Validate] returns an error exactly when there is no target (no
    resource argument and no filename) or the selector is nil, and returns
    nil when a target and a selector are there.  In the command's Run the
    error ends the invocation with no collaborator call made: no object is
    visited. *)
Theorem Validate_configuration_errors (o : SelectorOptions T) :
  (Validate o <> None
   <-> (resources o = [] /\ Filenames (fileOptions o) = []) \/ selector o = None)
  /\ ((resources o <> [] \/ Filenames (fileOptions o) <> []) ->
      selector o <> None -> Validate o = None)
  /\ (forall e : error,
        Validate o = Some e ->
        e = Errorf "one or more resources must be specified as <resource> <name> or <resource>/<name>" []
        \/ e = Errorf "one selector is required" [])
  /\ (forall (h : Helpers T) (c : Cluster T) (o0 : SelectorOptions T) (f : Factory T)
             (cmd : Command T) (args : list string) (w : list (event T)) (e : error),
        Complete h o0 f cmd args = (o, None) ->
        Validate o = Some e ->
        Run h c o0 f cmd args w = (ExitFatal e, w)).
Proof.
  split; [|split; [|split]].
  - unfold Validate, IsFilenameSliceEmpty.
    destruct (resources o) as [|r rs], (Filenames (fileOptions o)) as [|fn fns],
      (selector o) as [s|]; simpl; split; intros H; try congruence;
      try (left; split; reflexivity); try (right; reflexivity);
      try (destruct H as [[H1 H2]|H]; congruence).
  - intros Htargets Hsel. unfold Validate, IsFilenameSliceEmpty.
    destruct (resources o) as [|r rs], (Filenames (fileOptions o)) as [|fn fns],
      (selector o) as [s|]; simpl; try congruence; destruct Htargets; congruence.
  - intros e. unfold Validate.
    destruct (_ && _); [intros [= <-]; left; reflexivity|].
    destruct (selector o); [discriminate | intros [= <-]; right; reflexivity].
  - intros h c o0 f cmd args w e HC HV. unfold Run. rewrite HC, HV. reflexivity.
Qed.

End Arguments_and_validation.

Section Visit.
Context {T : ApiTypes}.

(** When the patch calculation of a visit returns without error, both
    encodings, the update of the versioned object and the difference have
    succeeded; the [Info] then holds the updated object and no collaborator
    call has been recorded. *)
Lemma CalculatePatch_success (c : Cluster T) (o : SelectorOptions T)
    (info : Info T) (w : list (event T)) (patch : Patch) (s' : VisitState T) :
  CalculatePatch c zero_Patch (Encode c) (mutateFn c o)
    {| st_info := info; st_trace := w |} = (Ret patch, s') ->
  Err patch = None ->
  exists (before after p : bytes) (sel : LabelSelector) (obj' : runtime_Object T),
    Encode c (Object info) = Ok before
    /\ selector o = Some sel
    /\ updateSelectorForObject (AsVersioned c info) sel = (obj', None)
    /\ Encode c obj' = Ok after
    /\ minimal_patch c before after = Ok p
    /\ patch = {| Before := before; After := after; PatchBytes := p; Err := None |}
    /\ s' = {| st_info := set_Object info obj'; st_trace := w |}.
Proof.
  unfold CalculatePatch, mutateFn, bind, get_info, put_info, deref, ret, panic. simpl.
  destruct (Encode c (Object info)) as [before|e] eqn:Hb; simpl.
  2:{ intros [= <- <-]. discriminate. }
  destruct (selector o) as [sel|] eqn:Hsel; simpl; [|discriminate].
  destruct (updateSelectorForObject (AsVersioned c info) sel) as [obj' [e|]] eqn:Hu; simpl.
  { intros [= <- <-]. discriminate. }
  destruct (Encode c obj') as [after|e] eqn:Ha; simpl.
  2:{ intros [= <- <-]. discriminate. }
  destruct (minimal_patch c before after) as [p|e] eqn:Hp; simpl.
  2:{ intros [= <- <-]. discriminate. }
  intros [= <- <-] _.
  exists before, after, p, sel, obj'. repeat split; auto.
Qed.

End Visit.

Section Apply.
Context {T : ApiTypes}.

(** C6, as amended.  In local or dry-run mode, when the patch calculation of a
    visit succeeds, the visit hands the updated in-memory object to the
    printer and makes no other collaborator call (no Patch, no Replace, no
    Refresh); the visit returns what the printer returns, so it succeeds
    exactly when the printer accepts the object. *)
Theorem visit_local_prints_mutated (c : Cluster T) (o : SelectorOptions T)
    (info : Info T) (w : list (event T)) (patch : Patch) (s' : VisitState T) :
  local o || dryrun o = true ->
  CalculatePatch c zero_Patch (Encode c) (mutateFn c o)
    {| st_info := info; st_trace := w |} = (Ret patch, s') ->
  Err patch = None ->
  exists (sel : LabelSelector) (obj' : runtime_Object T),
    selector o = Some sel
    /\ updateSelectorForObject (AsVersioned c info) sel = (obj', None)
    /\ visit c o {| st_info := info; st_trace := w |}
       = (Ret (PrintObj o obj' (out o)),
          {| st_info := set_Object info obj';
             st_trace := (w ++ [CallPrintObj obj'])%list |})
    /\ filter (fun e => is_remote e = true)
              (st_trace (snd (visit c o {| st_info := info; st_trace := w |})))
       = filter (fun e => is_remote e = true) w.
Proof.
  intros Hmode Hcalc Herr.
  destruct (CalculatePatch_success c o info w patch s' Hcalc Herr)
    as (before & after & p & sel & obj' & Hb & Hsel & Hu & Ha & Hp & -> & ->).
  exists sel, obj'. split; [exact Hsel|]. split; [exact Hu|].
  assert (Hv : visit c o {| st_info := info; st_trace := w |}
               = (Ret (PrintObj o obj' (out o)),
                  {| st_info := set_Object info obj';
                     st_trace := (w ++ [CallPrintObj obj'])%list |})).
  { unfold visit, bind. rewrite Hcalc. simpl. rewrite Hmode. reflexivity. }
  split; [exact Hv|].
  rewrite Hv. simpl. rewrite filter_app. simpl. apply app_nil_r.
Qed.

(** C7, as amended.  After a successful remote patch, when the record flag is
    set or the object carries a change cause, the annotation succeeds and the
    replace call fails, the visit returns the error "changes to
    <resource>/<name> can't be recorded: <cause>": the visit fails, the Info is
    not refreshed and the printer is not called.  Patch and Replace are the
    only remote calls made: nothing reverts the applied patch. *)
Theorem visit_record_failure_fails_visit (c : Cluster T) (o : SelectorOptions T)
    (info : Info T) (w : list (event T)) (patch : Patch) (s1 : VisitState T)
    (patched patched' : runtime_Object T) (err : error) :
  local o || dryrun o = false ->
  CalculatePatch c zero_Patch (Encode c) (mutateFn c o)
    {| st_info := info; st_trace := w |} = (Ret patch, s1) ->
  Err patch = None ->
  Helper_Patch c w (Client info) (Mapping info) (Namespace info) (Name info)
    StrategicMergePatchType (PatchBytes patch) = Ok patched ->
  record o || ContainsChangeCause c (st_info s1) = true ->
  RecordChangeCause c patched (changeCause o) = (patched', None) ->
  Helper_Replace c
    (w ++ [CallPatch (Namespace info) (Name info) StrategicMergePatchType (PatchBytes patch)])%list
    (Client info) (Mapping info) (Namespace info) (Name info) false patched' = Fail err ->
  visit c o {| st_info := info; st_trace := w |}
  = (Ret (Some (Errorf ("changes to %s/%s can't be recorded: %v" +:+ newline)
                  [ArgString (Resource (Mapping info)); ArgString (Name info);
                   ArgError err])),
     {| st_info := st_info s1;
        st_trace := (w ++ [CallPatch (Namespace info) (Name info)
                             StrategicMergePatchType (PatchBytes patch);
                           CallReplace (Namespace info) (Name info) false patched'])%list |}).
Proof.
  intros Hmode Hcalc Herr HP Hrec HR HRep.
  destruct (CalculatePatch_success c o info w patch s1 Hcalc Herr)
    as (before & after & p & sel & obj' & Hb & Hsel & Hu & Ha & Hp & Hpatch & Hs1).
  subst s1. simpl in *.
  unfold visit, bind. rewrite Hcalc. rewrite Herr, Hmode. simpl.
  rewrite HP. rewrite Hrec. rewrite HR. simpl. rewrite HRep.
  simpl. rewrite <- app_assoc. reflexivity.
Qed.

(** X20.  When the annotation itself fails there is no replace call, and the visit
    goes on to refresh the Info from the patched object and to print. *)
Lemma visit_annotation_failure_is_ignored (c : Cluster T) (o : SelectorOptions T)
    (info : Info T) (w : list (event T)) (patch : Patch) (s1 : VisitState T)
    (patched patched' : runtime_Object T) (aerr : error) :
  local o || dryrun o = false ->
  CalculatePatch c zero_Patch (Encode c) (mutateFn c o)
    {| st_info := info; st_trace := w |} = (Ret patch, s1) ->
  Err patch = None ->
  Helper_Patch c w (Client info) (Mapping info) (Namespace info) (Name info)
    StrategicMergePatchType (PatchBytes patch) = Ok patched ->
  record o || ContainsChangeCause c (st_info s1) = true ->
  RecordChangeCause c patched (changeCause o) = (patched', Some aerr) ->
  let info' := Info_Refresh c (st_info s1) patched' true in
  visit c o {| st_info := info; st_trace := w |}
  = (Ret (PrintObj o (AsVersioned c info') (out o)),
     {| st_info := info';
        st_trace := (w ++ [CallPatch (Namespace info) (Name info)
                             StrategicMergePatchType (PatchBytes patch);
                           CallRefresh patched' true;
                           CallPrintObj (AsVersioned c info')])%list |}).
Proof.
  intros Hmode Hcalc Herr HP Hrec HR.
  destruct (CalculatePatch_success c o info w patch s1 Hcalc Herr)
    as (before & after & p & sel & obj' & Hb & Hsel & Hu & Ha & Hp & Hpatch & Hs1).
  subst s1. simpl in *.
  unfold visit, bind. rewrite Hcalc. rewrite Herr, Hmode. simpl.
  rewrite HP. rewrite Hrec. rewrite HR. simpl.
  unfold call_PrintObj, bind, emit, ret. simpl.
  repeat rewrite <- app_assoc. reflexivity.
Qed.

End Apply.

Section Completion.
Context {T : ApiTypes}.

(** C10, as amended.  With the local flag set and at least one argument before
    the selector expression, [Complete] always returns an error, and Run ends
    there with no collaborator call made: nothing is resolved, patched or
    printed.  The error is LocalResourceError when the default namespace and
    the parse of the selector expression are obtained without error;
    otherwise it is the error of the step that failed first: the error of
    the default namespace if there is one, else the error of the parse. *)
Theorem Complete_local_rejects_resources (h : Helpers T) (o : SelectorOptions T)
    (f : Factory T) (cmd : Command T) (rs : list string) (e : string) :
  GetFlagBool h cmd "local" = true ->
  rs <> [] ->
  (exists err : error,
      snd (Complete h o f cmd (rs ++ [e])) = Some err
      /\ err = match snd (f_DefaultNamespace f) with
               | Some nerr => nerr
               | None =>
                   match snd (ParseToLabelSelector h e) with
                   | Some perr => perr
                   | None => LocalResourceError
                   end
               end
      /\ forall (c : Cluster T) (w : list (event T)),
           Run h c o f cmd (rs ++ [e]) w = (ExitFatal err, w))
  /\ (snd (f_DefaultNamespace f) = None ->
      snd (ParseToLabelSelector h e) = None ->
      snd (Complete h o f cmd (rs ++ [e])) = Some LocalResourceError).
Proof.
  intros Hlocal Hrs.
  assert (Hlen : (0 <? length rs)%nat = true).
  { destruct rs; [congruence | reflexivity]. }
  assert (HC : snd (Complete h o f cmd (rs ++ [e]))
               = Some match snd (f_DefaultNamespace f) with
                      | Some nerr => nerr
                      | None =>
                          match snd (ParseToLabelSelector h e) with
                          | Some perr => perr
                          | None => LocalResourceError
                          end
                      end).
  { unfold Complete.
    destruct (f_DefaultNamespace f) as [[ns enforce] [nerr|]]; simpl.
    { reflexivity. }
    rewrite getResourcesAndSelector_app.
    destruct (ParseToLabelSelector h e) as [sel [perr|]]; simpl.
    { reflexivity. }
    rewrite Hlocal. simpl. rewrite Hlen. reflexivity. }
  split.
  - eexists. split; [exact HC|]. split; [reflexivity|].
    intros c w. unfold Run.
    destruct (Complete h o f cmd (rs ++ [e])) as [o' oerr]. simpl in HC.
    rewrite HC. reflexivity.
  - intros Hns Hparse. rewrite HC, Hns, Hparse. reflexivity.
Qed.

End Completion.

(** ** The scenarios *)

(** Local mode, Service with [{env: prod}], expression [env=qa]: the printed
    object has selector [{env: qa}] and no remote call is recorded. *)
Example local_mode_scenario :
  visit (demo_cluster demo_pod) (demo_run_options true false demo_printer)
    {| st_info := demo_info; st_trace := [] |}
  = (Ret None,
     {| st_info := set_Object demo_info (ObjService demo_service_qa);
        st_trace := [CallPrintObj (ObjService demo_service_qa)] |}).
Proof. vm_compute. reflexivity. Qed.

Lemma visit_local_prints_mutated_witness :
  local demo_local || dryrun demo_local = true
  /\ exists (sel : LabelSelector) (obj' : runtime_Object demoT),
       selector demo_local = Some sel
       /\ updateSelectorForObject (AsVersioned (demo_cluster demo_pod) demo_info) sel
          = (obj', None)
       /\ visit (demo_cluster demo_pod) demo_local demo_state
          = (Ret (PrintObj demo_local obj' (out demo_local)),
             {| st_info := set_Object demo_info obj';
                st_trace := ([] ++ [CallPrintObj obj'])%list |})
       /\ filter (fun e => is_remote e = true)
                 (st_trace (snd (visit (demo_cluster demo_pod) demo_local demo_state)))
          = filter (fun e => is_remote e = true) [].
Proof.
  split; [reflexivity|].
  eapply (visit_local_prints_mutated (demo_cluster demo_pod) demo_local demo_info []).
  - reflexivity.
  - vm_compute. reflexivity.
  - reflexivity.
Defined.

(** C6 as stated fails: in local mode, with the patch calculated, the visit
    fails when the printer cannot write. *)
Lemma local_visit_fails_with_printer :
  local demo_local_broken || dryrun demo_local_broken = true
  /\ (exists (patch : Patch) (s' : VisitState demoT),
         CalculatePatch (demo_cluster demo_pod) zero_Patch (Encode (demo_cluster demo_pod))
           (mutateFn (demo_cluster demo_pod) demo_local_broken) demo_state
         = (Ret patch, s')
         /\ Err patch = None)
  /\ fst (visit (demo_cluster demo_pod) demo_local_broken demo_state)
     = Ret (Some (ExternalError "write: broken pipe")).
Proof.
  split; [reflexivity|]. split.
  - eexists. eexists. split; [vm_compute; reflexivity | reflexivity].
  - vm_compute. reflexivity.
Qed.

(** C7 as stated fails: with the record flag set, the patch accepted and the
    replace refused, the visit returns an error and the printer is not
    called. *)
Lemma record_failure_is_not_a_warning :
  local demo_remote_record || dryrun demo_remote_record = false
  /\ record demo_remote_record = true
  /\ fst (visit (demo_cluster (ObjService demo_service_qa)) demo_remote_record demo_state)
     = Ret (Some (Errorf ("changes to %s/%s can't be recorded: %v" +:+ newline)
                    [ArgString "services"; ArgString "web";
                     ArgError (ExternalError "conflict")]))
  /\ filter (fun e => is_print e = true)
       (st_trace (snd (visit (demo_cluster (ObjService demo_service_qa))
                         demo_remote_record demo_state)))
     = [].
Proof.
  split; [reflexivity|]. split; [reflexivity|]. split; vm_compute; reflexivity.
Qed.

Lemma visit_record_failure_fails_visit_witness :
  visit (demo_cluster (ObjService demo_service_qa)) demo_remote_record demo_state
  = (Ret (Some (Errorf ("changes to %s/%s can't be recorded: %v" +:+ newline)
                  [ArgString "services"; ArgString "web";
                   ArgError (ExternalError "conflict")])),
     {| st_info := set_Object demo_info (ObjService demo_service_qa);
        st_trace :=
          [CallPatch "default" "web" StrategicMergePatchType
             (String.list_byte_of_string "env=qa;");
           CallReplace "default" "web" false (ObjService demo_service_qa)] |}).
Proof.
  eapply (visit_record_failure_fails_visit
            (demo_cluster (ObjService demo_service_qa)) demo_remote_record demo_info []
            {| Before := String.list_byte_of_string "env=prod;";
               After := String.list_byte_of_string "env=qa;";
               PatchBytes := String.list_byte_of_string "env=qa;";
               Err := None |}
            {| st_info := set_Object demo_info (ObjService demo_service_qa);
               st_trace := [] |}
            (ObjService demo_service_qa) (ObjService demo_service_qa)
            (ExternalError "conflict")).
  - reflexivity.
  - vm_compute. reflexivity.
  - reflexivity.
  - reflexivity.
  - reflexivity.
  - reflexivity.
  - reflexivity.
Defined.

Lemma Validate_configuration_errors_witness :
  Run demo_helpers (demo_cluster demo_pod) demo_options demo_factory [] [] []
  = (ExitFatal (Errorf "one or more resources must be specified as <resource> <name> or <resource>/<name>" []), [])
  /\ Validate demo_local = None.
Proof.
  split.
  - apply (proj2 (proj2 (proj2 (Validate_configuration_errors
                                  (fst (Complete demo_helpers demo_options demo_factory [] [])))))
             demo_helpers (demo_cluster demo_pod) demo_options demo_factory [] [] []);
      reflexivity.
  - apply (proj1 (proj2 (Validate_configuration_errors demo_local))).
    + right. simpl. discriminate.
    + simpl. discriminate.
Defined.

Lemma Complete_local_rejects_resources_witness :
  GetFlagBool demo_helpers ["local"] "local" = true
  /\ snd (Complete demo_helpers demo_options demo_factory ["local"] (["svc/web"] ++ ["env=qa"]))
     = Some LocalResourceError
  /\ exists err : error,
       snd (Complete demo_helpers demo_options demo_factory ["local"] (["svc/web"] ++ ["("]))
       = Some err
       /\ err = ExternalError "unable to parse requirement"
       /\ forall (c : Cluster demoT) (w : list (event demoT)),
            Run demo_helpers c demo_options demo_factory ["local"] (["svc/web"] ++ ["("]) w
            = (ExitFatal err, w).
Proof.
  split; [reflexivity|]. split.
  - refine (proj2 (Complete_local_rejects_resources demo_helpers demo_options demo_factory
                     ["local"] ["svc/web"] "env=qa" _ _) _ _).
    + reflexivity.
    + discriminate.
    + reflexivity.
    + reflexivity.
  - refine (proj1 (Complete_local_rejects_resources demo_helpers demo_options demo_factory
                     ["local"] ["svc/web"] "(" _ _)).
    + reflexivity.
    + discriminate.
Defined.

(** C10 as stated fails: with the local flag and a resource argument, a
    selector expression that does not parse makes [Complete] return the parse
    error, not LocalResourceError. *)
Lemma Complete_local_parse_error_first :
  GetFlagBool demo_helpers ["local"] "local" = true
  /\ snd (Complete demo_helpers demo_options demo_factory ["local"] ["svc/web"; "("])
     = Some (ExternalError "unable to parse requirement")
  /\ snd (Complete demo_helpers demo_options demo_factory ["local"] ["svc/web"; "("])
     <> Some LocalResourceError.
Proof.
  split; [reflexivity|]. split; [reflexivity|]. vm_compute. discriminate.
Qed.

(** The command run end to end in local mode on a manifest: the Service is
    printed with selector [{env: qa}] and nothing else is called. *)
Example run_local_on_manifest :
  Run demo_helpers (demo_cluster demo_pod) demo_local demo_factory ["local"] ["env=qa"] []
  = (ExitOk, [CallPrintObj (ObjService demo_service_qa)]).
Proof. vm_compute. reflexivity. Qed.

(** Without the local flag the same run patches the store, refreshes the Info
    from the answer and prints it. *)
Example run_remote_on_manifest :
  Run demo_helpers (demo_cluster (ObjService demo_service_qa)) demo_local demo_factory
    [] ["env=qa"] []
  = (ExitOk,
     [CallPatch "default" "web" StrategicMergePatchType
        (String.list_byte_of_string "env=qa;");
      CallRefresh (ObjService demo_service_qa) true;
      CallPrintObj (ObjService demo_service_qa)]).
Proof. vm_compute. reflexivity. Qed.

(** * Further properties of the mutator *)

Section MutatorMore.
Context {T : ApiTypes}.

(** Whatever order the loop ranges over the entries of MatchLabels in, the
    copy is the same map. *)
Lemma copy_loop_permutation (m : GoMap) (entries : list (string * string)) :
  entries ≡ₚ go_range m -> copy_loop entries = go_entries m.
Proof.
  intros Hperm. unfold copy_loop. destruct m as [g|]; simpl in *.
  - rewrite fold_left_insert_rev.
    change (foldr (fun p m => <[p.1 := p.2]> m) ∅ (rev entries))
      with (list_to_map (M := gmap string string) (rev entries)).
    rewrite <- (list_to_map_to_list g) at 1.
    symmetry. apply list_to_map_proper.
    + apply NoDup_fst_map_to_list.
    + rewrite <- Hperm. apply Permutation_rev.
  - apply Permutation_nil_r in Hperm. subst entries. reflexivity.
Qed.

(** X1.  The result of [copyOldSelector] does not depend on the iteration order
    of the range loop: for every ordering of the entries of MatchLabels the
    loop builds the map the function returns. *)
Theorem copyOldSelector_order_independent (sel : LabelSelector)
    (entries : list (string * string)) :
  MatchExpressions sel = [] ->
  entries ≡ₚ go_range (MatchLabels sel) ->
  copyOldSelector sel = (Some (copy_loop entries), None).
Proof.
  intros Heq Hperm.
  rewrite (copy_loop_permutation _ _ Hperm).
  apply copyOldSelector_equality_only. exact Heq.
Qed.

(** X2.  [updateSelectorForObject] returns nil exactly for a Service and a
    selector without match expressions. *)
Theorem updateSelector_succeeds_iff (obj : runtime_Object T) (sel : LabelSelector) :
  snd (updateSelectorForObject obj sel) = None
  <-> is_v1_Service obj = true /\ MatchExpressions sel = [].
Proof.
  destruct obj as [t|x]; simpl.
  - destruct (MatchExpressions sel) as [|r rs] eqn:Hm.
    + rewrite (copyOldSelector_equality_only sel Hm). simpl. tauto.
    + rewrite (copyOldSelector_set_based sel) by (rewrite Hm; discriminate).
      simpl. split; [discriminate | intros [_ H]; discriminate H].
  - split; [discriminate | intros [H _]; discriminate H].
Qed.

(** X3.  A rejected selector is not a no-op on a Service: the assignment still
    happens and leaves Spec.Selector nil, the other fields as they were. *)
Theorem updateSelector_rejection_wipes_selector (t : Service T) (sel : LabelSelector) :
  MatchExpressions sel <> [] ->
  exists t' : Service T,
    fst (updateSelectorForObject (ObjService t) sel) = ObjService t'
    /\ Selector (Spec t') = None
    /\ svcTypeMeta t' = svcTypeMeta t
    /\ svcObjectMeta t' = svcObjectMeta t
    /\ specRest (Spec t') = specRest (Spec t)
    /\ Status t' = Status t.
Proof.
  intros Hne. exists (set_Spec_Selector t None). simpl.
  rewrite (copyOldSelector_set_based sel Hne). repeat split.
Qed.

(** X4.  Two updates in a row: the object and the error are those of the second
    update alone, so the last selector wins and repeating an update changes
    nothing. *)
Theorem updateSelector_last_wins (obj : runtime_Object T) (s1 s2 : LabelSelector) :
  updateSelectorForObject (fst (updateSelectorForObject obj s1)) s2
  = updateSelectorForObject obj s2.
Proof.
  destruct obj as [t|x]; simpl; [|reflexivity].
  destruct (copyOldSelector s1) as [m1 e1]. simpl.
  destruct (copyOldSelector s2) as [m2 e2]. reflexivity.
Qed.

End MutatorMore.

Lemma copyOldSelector_order_independent_witness :
  copyOldSelector sel_a1_b2
  = (Some (copy_loop [("b", "2"); ("a", "1")]), None)
  /\ copyOldSelector sel_a1_b2
     = (Some (copy_loop [("a", "1"); ("b", "2")]), None).
Proof.
  split.
  - apply (copyOldSelector_order_independent sel_a1_b2 [("b", "2"); ("a", "1")]).
    + reflexivity.
    + vm_compute. first [reflexivity | apply perm_swap].
  - apply (copyOldSelector_order_independent sel_a1_b2 [("a", "1"); ("b", "2")]).
    + reflexivity.
    + vm_compute. first [reflexivity | apply perm_swap].
Defined.

Lemma updateSelector_rejection_wipes_selector_witness :
  exists t' : Service demoT,
    fst (updateSelectorForObject (ObjService demo_service) sel_env_in) = ObjService t'
    /\ Selector (Spec t') = None
    /\ svcTypeMeta t' = svcTypeMeta demo_service
    /\ svcObjectMeta t' = svcObjectMeta demo_service
    /\ specRest (Spec t') = specRest (Spec demo_service)
    /\ Status t' = Status demo_service.
Proof.
  apply (updateSelector_rejection_wipes_selector demo_service sel_env_in).
  discriminate.
Defined.

(** * Further properties of Complete and Run *)

Section CompletionMore.
Context {T : ApiTypes}.

(** Case analysis over the return points of [Complete]. *)
Ltac Complete_cases h f cmd args :=
  unfold Complete;
  destruct (f_DefaultNamespace f) as [[?ns ?enforce] [?nerr|]]; simpl;
  [|destruct (getResourcesAndSelector (ParseToLabelSelector h) args)
      as [[?rs ?sel] [?perr|]]; simpl;
    [|destruct (GetFlagBool h cmd "local"); simpl;
      [destruct rs as [|?r ?rs]; simpl|];
      try (destruct (GetDryRunFlag h cmd); simpl;
           match goal with
           | |- context [ToPrinter h ?pf] => destruct (ToPrinter h pf) as [?p|?terr]
           end; simpl)]].

(** X5.  Whether it fails or not, [Complete] leaves fileOptions and out as they
    were and sets the five flag fields from the command. *)
Theorem Complete_frame (h : Helpers T) (o : SelectorOptions T) (f : Factory T)
    (cmd : Command T) (args : list string) :
  let o' := fst (Complete h o f cmd args) in
  fileOptions o' = fileOptions o
  /\ out o' = out o
  /\ local o' = GetFlagBool h cmd "local"
  /\ all o' = GetFlagBool h cmd "all"
  /\ record o' = GetRecordFlag h cmd
  /\ dryrun o' = GetDryRunFlag h cmd
  /\ output o' = GetFlagString h cmd "output".
Proof.
  Complete_cases h f cmd args; repeat split.
Qed.

(** X6.  [Complete] returns nil exactly when the default namespace is obtained,
    the arguments parse, local mode comes without resource arguments, and the
    print flags (completed with the dry-run template under dry-run) yield a
    printer. *)
Theorem Complete_succeeds_iff (h : Helpers T) (o : SelectorOptions T) (f : Factory T)
    (cmd : Command T) (args : list string) :
  let parsed := getResourcesAndSelector (ParseToLabelSelector h) args in
  let pf := if GetDryRunFlag h cmd
            then PrintFlags_Complete h (oPrintFlags o) "%s (dry run)"
            else oPrintFlags o in
  snd (Complete h o f cmd args) = None
  <-> snd (f_DefaultNamespace f) = None
      /\ snd parsed = None
      /\ (GetFlagBool h cmd "local" = true -> fst (fst parsed) = [])
      /\ exists printer, ToPrinter h pf = Ok printer.
Proof.
  Complete_cases h f cmd args; split;
    try discriminate;
    try (intros (H1 & H2 & H3 & p' & H4); try discriminate;
         try (specialize (H3 eq_refl); discriminate); fail);
    try (intros _; repeat split; try discriminate; eauto; fail).
Qed.

(** X7.  After a successful [Complete]: resources and selector are the split and
    parsed arguments, the printer is the one made from the print flags, and
    the builder is the factory's builder configured, in order, with the
    local flag, the default namespace, the filename options and the
    include-uninitialized flag, followed outside local mode only by the
    resource arguments and Latest. *)
Theorem Complete_success_fields (h : Helpers T) (o : SelectorOptions T) (f : Factory T)
    (cmd : Command T) (args : list string) :
  let parsed := getResourcesAndSelector (ParseToLabelSelector h) args in
  let pf := if GetDryRunFlag h cmd
            then PrintFlags_Complete h (oPrintFlags o) "%s (dry run)"
            else oPrintFlags o in
  let o' := fst (Complete h o f cmd args) in
  snd (Complete h o f cmd args) = None ->
  resources o' = fst (fst parsed)
  /\ selector o' = snd (fst parsed)
  /\ changeCause o' = f_Command f cmd false
  /\ mapper o' = f_Object f
  /\ oPrintFlags o' = pf
  /\ ToPrinter h pf = Ok (PrintObj o')
  /\ builder o'
     = (f_NewBuilder f
        ++ [Internal; LocalParam (GetFlagBool h cmd "local"); ContinueOnError;
            NamespaceParam (fst (fst (f_DefaultNamespace f))); DefaultNamespace;
            FilenameParam (snd (fst (f_DefaultNamespace f))) (fileOptions o);
            IncludeUninitialized (ShouldIncludeUninitialized h cmd false); Flatten]
        ++ (if GetFlagBool h cmd "local" then []
            else [ResourceTypeOrNameArgs (GetFlagBool h cmd "all") (fst (fst parsed));
                  Latest]))%list.
Proof.
  Complete_cases h f cmd args; try discriminate; intros _;
    repeat split; auto;
    try (rewrite app_nil_r; reflexivity);
    try (rewrite <- app_assoc; reflexivity).
Qed.

End CompletionMore.

Section RunMore.
Context {T : ApiTypes}.

Ltac Run_cases h f cmd args :=
  unfold Run, Complete;
  destruct (f_DefaultNamespace f) as [[?ns ?enforce] [?nerr|]]; simpl;
  [|destruct (getResourcesAndSelector (ParseToLabelSelector h) args)
      as [[?rs ?sel] [?perr|]] eqn:?Hparsed; simpl;
    [|destruct (GetFlagBool h cmd "local") eqn:?Hlocal; simpl;
      [destruct rs as [|?r ?rs]; simpl|];
      try (destruct (GetDryRunFlag h cmd); simpl;
           match goal with
           | |- context [ToPrinter h ?pf] => destruct (ToPrinter h pf) as [?p|?terr]
           end; simpl)]].

(** X8.  Local mode needs a manifest: with the local flag set and no filename
    given, the command ends with an error whatever the arguments are, and
    nothing is patched or printed. *)
Theorem Run_local_needs_filename (h : Helpers T) (c : Cluster T)
    (o : SelectorOptions T) (f : Factory T) (cmd : Command T)
    (args : list string) (w : list (event T)) :
  GetFlagBool h cmd "local" = true ->
  Filenames (fileOptions o) = [] ->
  exists e : error, Run h c o f cmd args w = (ExitFatal e, w).
Proof.
  intros Hl Hf.
  Run_cases h f cmd args; try (eexists; reflexivity); try congruence;
    unfold Validate; simpl; rewrite Hf; simpl; eexists; reflexivity.
Qed.

(** X9.  The command needs a selector expression and a target: without any
    argument, or with a single argument and no filename, it ends with an
    error and nothing is patched or printed. *)
Theorem Run_needs_selector_and_target (h : Helpers T) (c : Cluster T)
    (o : SelectorOptions T) (f : Factory T) (cmd : Command T)
    (args : list string) (w : list (event T)) :
  args = [] \/ (length args = 1 /\ Filenames (fileOptions o) = []) ->
  exists e : error, Run h c o f cmd args w = (ExitFatal e, w).
Proof.
  intros [-> | [Hlen Hf]].
  - unfold Run, Complete.
    destruct (f_DefaultNamespace f) as [[ns enforce] [nerr|]]; simpl;
      [eexists; reflexivity|].
    destruct (GetFlagBool h cmd "local"); simpl;
      destruct (GetDryRunFlag h cmd); simpl;
      match goal with
      | |- context [ToPrinter h ?pf] => destruct (ToPrinter h pf) as [p|terr]
      end; simpl; try (eexists; reflexivity);
      unfold Validate; simpl;
      destruct (IsFilenameSliceEmpty (Filenames (fileOptions o)));
      eexists; reflexivity.
  - destruct args as [|a [|b args]]; try discriminate Hlen.
    unfold Run, Complete.
    destruct (f_DefaultNamespace f) as [[ns enforce] [nerr|]]; simpl;
      [eexists; reflexivity|].
    pose proof (getResourcesAndSelector_app (ParseToLabelSelector h) [] a) as Hp.
    change ([] ++ [a])%list with [a] in Hp. rewrite Hp. clear Hp.
    destruct (ParseToLabelSelector h a) as [sel [perr|]]; simpl;
      [eexists; reflexivity|].
    destruct (GetFlagBool h cmd "local"); simpl;
      destruct (GetDryRunFlag h cmd); simpl;
      match goal with
      | |- context [ToPrinter h ?pf] => destruct (ToPrinter h pf) as [p|terr]
      end; simpl; try (eexists; reflexivity);
      unfold Validate; simpl; rewrite Hf; simpl; eexists; reflexivity.
Qed.

(** X10.  A collaborator call is recorded only after [Complete] and [Validate]
    have returned nil and the builder's result carries no error; the calls
    are then those of the visit of that result. *)
Theorem Run_calls_only_after_checks (h : Helpers T) (c : Cluster T)
    (o : SelectorOptions T) (f : Factory T) (cmd : Command T)
    (args : list string) (w : list (event T)) :
  let o' := fst (Complete h o f cmd args) in
  snd (Run h c o f cmd args w) <> w ->
  snd (Complete h o f cmd args) = None
  /\ Validate o' = None
  /\ Result_Err c (Do c (builder o')) = None
  /\ snd (Run h c o f cmd args w)
     = snd (Visit c (Do c (builder o'))
              (fun info _ w => visit c o' {| st_info := info; st_trace := w |}) w).
Proof.
  unfold Run, RunSelector.
  destruct (Complete h o f cmd args) as [o' [cerr|]]; simpl; [congruence|].
  destruct (Validate o') as [verr|]; simpl; [congruence|].
  destruct (Result_Err c (Do c (builder o'))) as [rerr|]; simpl; [congruence|].
  intros _.
  destruct (Visit c (Do c (builder o')) _ w) as [[[e|]|] w']; simpl; auto.
Qed.

End RunMore.

(** * Further properties of the visit *)

Section VisitMore.
Context {T : ApiTypes}.

(** The patch calculation of a visit records no call, changes at most the
    Object field of the Info, and panics only on a nil selector. *)
Lemma CalculatePatch_state (c : Cluster T) (o : SelectorOptions T)
    (info : Info T) (w : list (event T)) :
  exists (r : outcome Patch) (obj : runtime_Object T),
    CalculatePatch c zero_Patch (Encode c) (mutateFn c o)
      {| st_info := info; st_trace := w |}
    = (r, {| st_info := set_Object info obj; st_trace := w |})
    /\ (r = Panic -> selector o = None).
Proof.
  unfold CalculatePatch, mutateFn, bind, get_info, put_info, deref, ret, panic. simpl.
  destruct (Encode c (Object info)) as [before|e]; simpl.
  2:{ eexists; exists (Object info). split; [destruct info; reflexivity | discriminate]. }
  destruct (selector o) as [sel|]; simpl.
  2:{ eexists; eexists. split; [reflexivity | reflexivity]. }
  destruct (updateSelectorForObject (AsVersioned c info) sel) as [obj' [e|]]; simpl.
  { eexists; eexists. split; [reflexivity | discriminate]. }
  destruct (Encode c obj') as [after|e]; simpl.
  2:{ eexists; eexists. split; [reflexivity | discriminate]. }
  destruct (minimal_patch c before after) as [p|e]; simpl;
    eexists; eexists; (split; [reflexivity | discriminate]).
Qed.

Ltac visit_start c o info w :=
  let r := fresh "r" in
  let obj := fresh "obj" in
  let Hcalc := fresh "Hcalc" in
  let Hpanic := fresh "Hpanic" in
  destruct (CalculatePatch_state c o info w) as (r & obj & Hcalc & Hpanic);
  unfold visit, bind; rewrite Hcalc; clear Hcalc;
  destruct r as [?patch|]; simpl;
  [unfold call_PrintObj, call_Patch, call_Replace, call_Refresh, bind, ret,
     get_info, put_info, get_trace, emit; simpl|].

Ltac visit_paths :=
  repeat match goal with
         | |- context [Err ?p] =>
             destruct (Err p) eqn:?; simpl
         | |- context [local ?o || dryrun ?o] =>
             destruct (local o || dryrun o) eqn:?; simpl
         | |- context [Helper_Patch ?c ?w ?a ?b ?d ?e ?f ?g] =>
             destruct (Helper_Patch c w a b d e f g) eqn:?; simpl
         | |- context [record ?o || ContainsChangeCause ?c ?i] =>
             destruct (record o || ContainsChangeCause c i) eqn:?; simpl
         | |- context [RecordChangeCause ?c ?p ?s] =>
             destruct (RecordChangeCause c p s) as [? [?|]] eqn:?; simpl
         | |- context [Helper_Replace ?c ?w ?a ?b ?d ?e ?f ?g] =>
             destruct (Helper_Replace c w a b d e f g) eqn:?; simpl
         end.

(** X11.  The calls of one visit are appended to the trace and form one of six
    sequences: nothing; a print; a patch; a patch and a replace; a patch, a
    refresh and a print; a patch, a replace, a refresh and a print.  Patch
    and replace are addressed to the namespace and name of the visited
    Info, the patch is a strategic merge patch, the replace does not
    overwrite and the refresh ignores the version. *)
Theorem visit_call_sequences (c : Cluster T) (o : SelectorOptions T)
    (st : VisitState T) :
  exists evs : list (event T),
    st_trace (snd (visit c o st)) = (st_trace st ++ evs)%list
    /\ call_sequence (Namespace (st_info st)) (Name (st_info st)) evs.
Proof.
  destruct st as [info w]. visit_start c o info w.
  - visit_paths; repeat rewrite <- app_assoc; simpl;
      first [ exists []; split; [symmetry; apply app_nil_r | constructor]
            | eexists; split; [reflexivity | constructor] ].
  - exists []. split; [symmetry; apply app_nil_r | constructor].
Qed.

(** X12.  A visit that returns nil has called the printer exactly once, as its
    last call, and the printer returned nil. *)
Theorem visit_nil_prints_once (c : Cluster T) (o : SelectorOptions T)
    (st : VisitState T) :
  fst (visit c o st) = Ret None ->
  exists (evs : list (event T)) (obj : runtime_Object T),
    st_trace (snd (visit c o st)) = (st_trace st ++ evs ++ [CallPrintObj obj])%list
    /\ filter (fun e => is_print e = true) evs = []
    /\ PrintObj o obj (out o) = None.
Proof.
  destruct st as [info w]. visit_start c o info w; [|discriminate].
  visit_paths; try discriminate;
    intros Hnil; repeat rewrite <- app_assoc; simpl;
    first [ exists []; eexists; split; [reflexivity | split; [reflexivity | congruence]]
          | eexists [_]; eexists; split; [reflexivity | split; [reflexivity | congruence]]
          | eexists [_; _]; eexists; split; [reflexivity | split; [reflexivity | congruence]]
          | eexists [_; _; _]; eexists; split;
            [reflexivity | split; [reflexivity | congruence]] ].
Qed.

(** X13.  In local or dry-run mode a visit is offline whatever happens: it records
    no call at all or a single print, and of the Info it changes at most the
    Object field. *)
Theorem visit_local_is_offline (c : Cluster T) (o : SelectorOptions T)
    (st : VisitState T) :
  local o || dryrun o = true ->
  (exists obj : runtime_Object T,
      st_info (snd (visit c o st)) = set_Object (st_info st) obj)
  /\ (st_trace (snd (visit c o st)) = st_trace st
      \/ exists obj : runtime_Object T,
           st_trace (snd (visit c o st)) = (st_trace st ++ [CallPrintObj obj])%list).
Proof.
  intros Hmode. destruct st as [info w]. visit_start c o info w.
  - rewrite Hmode.
    destruct (Err patch); simpl;
      (split; [eexists; reflexivity
              | first [left; reflexivity | right; eexists; reflexivity]]).
  - split; [eexists; reflexivity | left; reflexivity].
Qed.

(** X14.  Once [Validate] has returned nil the visit cannot panic. *)
Theorem Validate_prevents_panic (c : Cluster T) (o : SelectorOptions T)
    (st : VisitState T) :
  Validate o = None -> fst (visit c o st) <> Panic.
Proof.
  intros HV.
  assert (Hsel : selector o <> None).
  { unfold Validate in HV. destruct (_ && _); [discriminate|].
    destruct (selector o) as [sel|]; [discriminate | discriminate]. }
  destruct st as [info w]. visit_start c o info w.
  - visit_paths; discriminate.
  - exfalso. apply Hsel, Hpanic. reflexivity.
Qed.

(** X15.  With a nil selector the visit panics on the dereference, after the
    object has been replaced by its versioned form and before any call. *)
Theorem visit_nil_selector_panics (c : Cluster T) (o : SelectorOptions T)
    (info : Info T) (w : list (event T)) (before : bytes) :
  selector o = None ->
  Encode c (Object info) = Ok before ->
  visit c o {| st_info := info; st_trace := w |}
  = (Panic, {| st_info := set_Object info (AsVersioned c info); st_trace := w |}).
Proof.
  intros Hsel Henc.
  unfold visit, CalculatePatch, mutateFn, bind, get_info, put_info, deref, ret, panic.
  simpl. rewrite Henc, Hsel. reflexivity.
Qed.

(** X16.  When the update of the versioned object is rejected (unsupported kind or
    match expressions), the visit returns that error in every run mode, no
    call is recorded, and the Info holds the object as the update left it. *)
Theorem visit_rejected_update (c : Cluster T) (o : SelectorOptions T)
    (info : Info T) (w : list (event T)) (before : bytes) (sel : LabelSelector)
    (obj' : runtime_Object T) (e : error) :
  selector o = Some sel ->
  Encode c (Object info) = Ok before ->
  updateSelectorForObject (AsVersioned c info) sel = (obj', Some e) ->
  visit c o {| st_info := info; st_trace := w |}
  = (Ret (Some e), {| st_info := set_Object info obj'; st_trace := w |}).
Proof.
  intros Hsel Henc Hupd.
  unfold visit, CalculatePatch, mutateFn, bind, get_info, put_info, deref, ret, panic.
  simpl. rewrite Henc, Hsel. simpl. rewrite Hupd. reflexivity.
Qed.

End VisitMore.

Section RemoteMore.
Context {T : ApiTypes}.

(** X17.  Remote mode without recording: after a successful patch the Info is
    refreshed from the object the store returned, and what is printed is the
    versioned form of the refreshed Info, not the locally updated object.
    The calls are the patch, the refresh and the print, in this order. *)
Theorem visit_remote_prints_refreshed (c : Cluster T) (o : SelectorOptions T)
    (info : Info T) (w : list (event T)) (patch : Patch) (s1 : VisitState T)
    (patched : runtime_Object T) :
  local o || dryrun o = false ->
  CalculatePatch c zero_Patch (Encode c) (mutateFn c o)
    {| st_info := info; st_trace := w |} = (Ret patch, s1) ->
  Err patch = None ->
  Helper_Patch c w (Client info) (Mapping info) (Namespace info) (Name info)
    StrategicMergePatchType (PatchBytes patch) = Ok patched ->
  record o || ContainsChangeCause c (st_info s1) = false ->
  let info' := Info_Refresh c (st_info s1) patched true in
  visit c o {| st_info := info; st_trace := w |}
  = (Ret (PrintObj o (AsVersioned c info') (out o)),
     {| st_info := info';
        st_trace := (w ++ [CallPatch (Namespace info) (Name info)
                             StrategicMergePatchType (PatchBytes patch);
                           CallRefresh patched true;
                           CallPrintObj (AsVersioned c info')])%list |}).
Proof.
  intros Hmode Hcalc Herr HP Hrec.
  destruct (CalculatePatch_success c o info w patch s1 Hcalc Herr)
    as (before & after & p & sel & obj' & Hb & Hsel & Hu & Ha & Hp & Hpatch & Hs1).
  subst s1. simpl in *.
  unfold visit, bind. rewrite Hcalc. rewrite Herr, Hmode. simpl.
  rewrite HP. rewrite Hrec. simpl.
  unfold call_PrintObj, bind, emit, ret. simpl.
  repeat rewrite <- app_assoc. reflexivity.
Qed.

(** X18.  Remote mode with recording: the object returned by the patch is
    annotated and sent back with a replace call; the Info is refreshed from
    the object the replace returned and its versioned form is printed. *)
Theorem visit_remote_records (c : Cluster T) (o : SelectorOptions T)
    (info : Info T) (w : list (event T)) (patch : Patch) (s1 : VisitState T)
    (patched annotated replaced : runtime_Object T) :
  local o || dryrun o = false ->
  CalculatePatch c zero_Patch (Encode c) (mutateFn c o)
    {| st_info := info; st_trace := w |} = (Ret patch, s1) ->
  Err patch = None ->
  Helper_Patch c w (Client info) (Mapping info) (Namespace info) (Name info)
    StrategicMergePatchType (PatchBytes patch) = Ok patched ->
  record o || ContainsChangeCause c (st_info s1) = true ->
  RecordChangeCause c patched (changeCause o) = (annotated, None) ->
  Helper_Replace c
    (w ++ [CallPatch (Namespace info) (Name info) StrategicMergePatchType (PatchBytes patch)])%list
    (Client info) (Mapping info) (Namespace info) (Name info) false annotated
  = Ok replaced ->
  let info' := Info_Refresh c (st_info s1) replaced true in
  visit c o {| st_info := info; st_trace := w |}
  = (Ret (PrintObj o (AsVersioned c info') (out o)),
     {| st_info := info';
        st_trace := (w ++ [CallPatch (Namespace info) (Name info)
                             StrategicMergePatchType (PatchBytes patch);
                           CallReplace (Namespace info) (Name info) false annotated;
                           CallRefresh replaced true;
                           CallPrintObj (AsVersioned c info')])%list |}).
Proof.
  intros Hmode Hcalc Herr HP Hrec HR HRep.
  destruct (CalculatePatch_success c o info w patch s1 Hcalc Herr)
    as (before & after & p & sel & obj' & Hb & Hsel & Hu & Ha & Hp & Hpatch & Hs1).
  subst s1. simpl in *.
  unfold visit, bind. rewrite Hcalc. rewrite Herr, Hmode. simpl.
  rewrite HP. rewrite Hrec. rewrite HR. simpl. rewrite HRep. simpl.
  unfold call_PrintObj, bind, emit, ret. simpl.
  repeat rewrite <- app_assoc. reflexivity.
Qed.

(** X19.  Remote mode, patch refused: the visit returns the store's error as it
    is, the patch is the only call, and the Info keeps the locally updated
    object (no refresh, no print). *)
Theorem visit_remote_patch_failure (c : Cluster T) (o : SelectorOptions T)
    (info : Info T) (w : list (event T)) (patch : Patch) (s1 : VisitState T)
    (err : error) :
  local o || dryrun o = false ->
  CalculatePatch c zero_Patch (Encode c) (mutateFn c o)
    {| st_info := info; st_trace := w |} = (Ret patch, s1) ->
  Err patch = None ->
  Helper_Patch c w (Client info) (Mapping info) (Namespace info) (Name info)
    StrategicMergePatchType (PatchBytes patch) = Fail err ->
  visit c o {| st_info := info; st_trace := w |}
  = (Ret (Some err),
     {| st_info := st_info s1;
        st_trace := (w ++ [CallPatch (Namespace info) (Name info)
                             StrategicMergePatchType (PatchBytes patch)])%list |}).
Proof.
  intros Hmode Hcalc Herr HP.
  destruct (CalculatePatch_success c o info w patch s1 Hcalc Herr)
    as (before & after & p & sel & obj' & Hb & Hsel & Hu & Ha & Hp & Hpatch & Hs1).
  subst s1. simpl in *.
  unfold visit, bind. rewrite Hcalc. rewrite Herr, Hmode. simpl.
  rewrite HP. reflexivity.
Qed.

End RemoteMore.

(** ** Instances of the further properties *)

Lemma Complete_success_fields_witness :
  snd (Complete demo_helpers demo_options demo_factory [] ["svc/web"; "env=qa"]) = None
  /\ resources (fst (Complete demo_helpers demo_options demo_factory []
                       ["svc/web"; "env=qa"])) = ["svc/web"]
  /\ selector (fst (Complete demo_helpers demo_options demo_factory []
                      ["svc/web"; "env=qa"])) = Some sel_env_qa
  /\ builder (fst (Complete demo_helpers demo_options demo_factory []
                     ["svc/web"; "env=qa"]))
     = [Internal; LocalParam false; ContinueOnError; NamespaceParam "default";
        DefaultNamespace;
        FilenameParam false {| Filenames := []; Recursive := false |};
        IncludeUninitialized false; Flatten;
        ResourceTypeOrNameArgs false ["svc/web"]; Latest].
Proof.
  split; [reflexivity|].
  destruct (Complete_success_fields demo_helpers demo_options demo_factory []
              ["svc/web"; "env=qa"] eq_refl)
    as (Hres & Hsel & _ & _ & _ & _ & Hb).
  split; [exact Hres|]. split; [exact Hsel | exact Hb].
Defined.

Lemma Run_local_needs_filename_witness :
  exists e : error,
    Run demo_helpers (demo_cluster demo_pod) demo_options demo_factory
      ["local"] ["env=qa"] []
    = (ExitFatal e, []).
Proof.
  apply (Run_local_needs_filename demo_helpers (demo_cluster demo_pod) demo_options
           demo_factory ["local"] ["env=qa"] []); reflexivity.
Defined.

Lemma Run_needs_selector_and_target_witness :
  (exists e : error,
      Run demo_helpers (demo_cluster demo_pod) demo_local demo_factory [] [] []
      = (ExitFatal e, []))
  /\ (exists e : error,
         Run demo_helpers (demo_cluster demo_pod) demo_options demo_factory [] ["env=qa"] []
         = (ExitFatal e, [])).
Proof.
  split.
  - apply (Run_needs_selector_and_target demo_helpers (demo_cluster demo_pod) demo_local
             demo_factory [] [] []).
    left. reflexivity.
  - apply (Run_needs_selector_and_target demo_helpers (demo_cluster demo_pod) demo_options
             demo_factory [] ["env=qa"] []).
    right. split; reflexivity.
Defined.

Lemma Run_calls_only_after_checks_witness :
  snd (Complete demo_helpers demo_local demo_factory ["local"] ["env=qa"]) = None
  /\ Validate (fst (Complete demo_helpers demo_local demo_factory ["local"] ["env=qa"]))
     = None.
Proof.
  destruct (Run_calls_only_after_checks demo_helpers (demo_cluster demo_pod) demo_local
              demo_factory ["local"] ["env=qa"] [])
    as (HC & HV & _ & _).
  - vm_compute. discriminate.
  - split; [exact HC | exact HV].
Defined.

Lemma visit_nil_prints_once_witness :
  exists (evs : list (event demoT)) (obj : runtime_Object demoT),
    st_trace (snd (visit (demo_cluster demo_pod) demo_local demo_state))
    = (st_trace demo_state ++ evs ++ [CallPrintObj obj])%list
    /\ filter (fun e => is_print e = true) evs = []
    /\ PrintObj demo_local obj (out demo_local) = None.
Proof.
  apply (visit_nil_prints_once (demo_cluster demo_pod) demo_local demo_state).
  vm_compute. reflexivity.
Defined.

Lemma visit_local_is_offline_witness :
  (exists obj : runtime_Object demoT,
      st_info (snd (visit (demo_cluster demo_pod) demo_local_broken demo_state))
      = set_Object (st_info demo_state) obj)
  /\ (st_trace (snd (visit (demo_cluster demo_pod) demo_local_broken demo_state))
      = st_trace demo_state
      \/ exists obj : runtime_Object demoT,
           st_trace (snd (visit (demo_cluster demo_pod) demo_local_broken demo_state))
           = (st_trace demo_state ++ [CallPrintObj obj])%list).
Proof.
  apply (visit_local_is_offline (demo_cluster demo_pod) demo_local_broken demo_state).
  reflexivity.
Defined.

Lemma Validate_prevents_panic_witness :
  Validate demo_remote = None
  /\ fst (visit (demo_store false true true demo_pod) demo_remote demo_state) <> Panic.
Proof.
  split; [reflexivity|].
  apply (Validate_prevents_panic (demo_store false true true demo_pod) demo_remote
           demo_state).
  reflexivity.
Defined.

Lemma visit_nil_selector_panics_witness :
  visit (demo_cluster demo_pod) demo_nil_selector demo_state
  = (Panic, {| st_info := demo_info; st_trace := [] |}).
Proof.
  apply (visit_nil_selector_panics (demo_cluster demo_pod) demo_nil_selector demo_info []
           (String.list_byte_of_string "env=prod;")).
  - reflexivity.
  - vm_compute. reflexivity.
Defined.

Lemma visit_rejected_update_witness :
  visit (demo_cluster demo_pod) demo_set_based demo_state
  = (Ret (Some (unsupported_selector_form [req_env_in])),
     {| st_info := set_Object demo_info (ObjService (set_Spec_Selector demo_service None));
        st_trace := [] |}).
Proof.
  apply (visit_rejected_update (demo_cluster demo_pod) demo_set_based demo_info []
           (String.list_byte_of_string "env=prod;") sel_env_in).
  - reflexivity.
  - vm_compute. reflexivity.
  - reflexivity.
Defined.

Lemma visit_remote_prints_refreshed_witness :
  visit (demo_store true true true (ObjService demo_service_stored)) demo_remote demo_state
  = (Ret None,
     {| st_info := set_Object demo_info (ObjService demo_service_stored);
        st_trace :=
          [CallPatch "default" "web" StrategicMergePatchType
             (String.list_byte_of_string "env=qa;");
           CallRefresh (ObjService demo_service_stored) true;
           CallPrintObj (ObjService demo_service_stored)] |}).
Proof.
  apply (visit_remote_prints_refreshed
           (demo_store true true true (ObjService demo_service_stored)) demo_remote
           demo_info [] demo_patch demo_state_updated (ObjService demo_service_stored)).
  - reflexivity.
  - vm_compute. reflexivity.
  - reflexivity.
  - reflexivity.
  - reflexivity.
Defined.

Lemma visit_remote_records_witness :
  visit (demo_store true true true (ObjService demo_service_stored)) demo_remote_record
    demo_state
  = (Ret None,
     {| st_info := set_Object demo_info (ObjService demo_service_stored);
        st_trace :=
          [CallPatch "default" "web" StrategicMergePatchType
             (String.list_byte_of_string "env=qa;");
           CallReplace "default" "web" false (ObjService demo_service_stored);
           CallRefresh (ObjService demo_service_stored) true;
           CallPrintObj (ObjService demo_service_stored)] |}).
Proof.
  apply (visit_remote_records
           (demo_store true true true (ObjService demo_service_stored)) demo_remote_record
           demo_info [] demo_patch demo_state_updated (ObjService demo_service_stored)
           (ObjService demo_service_stored) (ObjService demo_service_stored)).
  - reflexivity.
  - vm_compute. reflexivity.
  - reflexivity.
  - reflexivity.
  - reflexivity.
  - reflexivity.
  - reflexivity.
Defined.

Lemma visit_remote_patch_failure_witness :
  visit (demo_store false true true demo_pod) demo_remote demo_state
  = (Ret (Some (ExternalError "not found")),
     {| st_info := set_Object demo_info (ObjService demo_service_qa);
        st_trace :=
          [CallPatch "default" "web" StrategicMergePatchType
             (String.list_byte_of_string "env=qa;")] |}).
Proof.
  apply (visit_remote_patch_failure (demo_store false true true demo_pod) demo_remote
           demo_info [] demo_patch demo_state_updated (ExternalError "not found")).
  - reflexivity.
  - vm_compute. reflexivity.
  - reflexivity.
  - reflexivity.
Defined.

Lemma visit_annotation_failure_is_ignored_witness :
  visit (demo_store true false true (ObjService demo_service_stored)) demo_remote_record
    demo_state
  = (Ret None,
     {| st_info := set_Object demo_info (ObjService demo_service_stored);
        st_trace :=
          [CallPatch "default" "web" StrategicMergePatchType
             (String.list_byte_of_string "env=qa;");
           CallRefresh (ObjService demo_service_stored) true;
           CallPrintObj (ObjService demo_service_stored)] |}).
Proof.
  apply (visit_annotation_failure_is_ignored
           (demo_store true false true (ObjService demo_service_stored)) demo_remote_record
           demo_info [] demo_patch demo_state_updated (ObjService demo_service_stored)
           (ObjService demo_service_stored) (ExternalError "no accessor")).
  - reflexivity.
  - vm_compute. reflexivity.
  - reflexivity.
  - reflexivity.
  - reflexivity.
  - reflexivity.
Defined.
